(** * The Playwright computers of [bua.computers]

    A shallow embedding of [computers/shared/base_playwright.py],
    [computers/default/browserbase.py] and [computers/default/lumiteh.py].

    The Python classes drive an automation engine (Playwright) through
    method calls on handles.  The engine is not part of the program, so
    every call on it is recorded in a trace and its outcome (return
    normally or raise) is read from an environment.  The instance
    attributes of a computer ([self._page], [self._browser], ...) form the
    state that the methods thread. *)

From stdpp Require Import base list strings gmap pretty.
From Stdlib Require Import ZArith Ascii.

Local Open Scope Z_scope.

(** ** Handles *)

(** A [Page] object of the engine.  Python compares pages by identity
    ([self._page == page]); the number stands for that identity. *)
Inductive Page := PageRef (n : nat).

(** The [Browser] connection and the engine object returned by
    [sync_playwright().start()]: one of each per computer. *)
Inductive Browser := browser_handle.
Inductive Playwright := playwright_handle.

(** The remote session created by the backend; only its identifier is read. *)
Record Session := { session_id : string }.

(** A selector descriptor and the element handle it resolves to. *)
Inductive Selector := SelectorRef (descr : string).
Inductive Locator := LocatorRef (n : nat).

Global Instance Page_eq_dec : EqDecision Page.
Proof. solve_decision. Defined.
Global Instance Selector_eq_dec : EqDecision Selector.
Proof. solve_decision. Defined.
Global Instance Locator_eq_dec : EqDecision Locator.
Proof. solve_decision. Defined.

(** ** Exceptions *)

(** [PlaywrightError] is [playwright.sync_api.Error], the base class of the
    engine's own exceptions.  [ElementResolutionError] is raised by the
    element locator.  [OtherException] stands for any exception class that
    is none of the listed ones. *)
Inductive Exn :=
| PlaywrightError (msg : string)
| AssertionError
| AttributeError (attr : string)
| IndexError
| KeyError (key : string)
| ValueError (msg : string)
| NotImplementedError
| ElementResolutionError
| OtherException (msg : string).

Global Instance Exn_eq_dec : EqDecision Exn.
Proof. solve_decision. Defined.

(** What [except PlaywrightError] catches. *)
Definition is_PlaywrightError (e : Exn) : bool :=
  match e with PlaywrightError _ => true | _ => false end.

(** [str(error)] as interpolated into the log lines. *)
Definition str_exn (e : Exn) : string :=
  match e with
  | PlaywrightError msg => msg
  | AssertionError => ""
  | AttributeError attr => "'NoneType' object has no attribute '" +:+ attr +:+ "'"
  | IndexError => "list index out of range"
  | KeyError key => "'" +:+ key +:+ "'"
  | ValueError msg => msg
  | NotImplementedError => ""
  | ElementResolutionError => "element not found"
  | OtherException msg => msg
  end.

(** ** Actions *)

(** [BaseAction] and the two subclasses [execute_action] tells apart.
    [selectors] is [None] when the attribute is missing.  [OtherAction]
    carries the name of any other class. *)
Inductive Action :=
| BrowserAction (verb : string)
| InteractionAction (verb : string) (selectors : option (list Selector))
| OtherAction (type_name : string).

Global Instance Action_eq_dec : EqDecision Action.
Proof. solve_decision. Defined.

(** ** Calls on the engine *)

Inductive Call :=
| sync_playwright_start
| sessions_create (viewport : Z * Z) (blockAds : bool) (region : string) (proxies : bool)
| sessions_start
| sessions_debug_info (sid : string)
| connect_over_cdp (timeout : Z)
| context_on_page
| context_add_init_script
| page_on_close (p : Page)
| page_route (p : Page) (pattern : string)
| page_goto (p : Page) (url : string)
| page_go_back (p : Page)
| page_go_forward (p : Page)
| page_close (p : Page)
| page_screenshot (p : Page) (full_page : bool)
| new_cdp_session (p : Page)
| cdp_send (p : Page) (method : string)
| browser_close
| playwright_stop
| mouse_click (p : Page) (x y : Z) (button : string)
| mouse_wheel (p : Page) (delta_x delta_y : Z)
| mouse_move (p : Page) (x y : Z)
| mouse_down (p : Page)
| mouse_up (p : Page)
| keyboard_down (p : Page) (key : string)
| keyboard_up (p : Page) (key : string)
| route_abort (url : string)
| route_continue (url : string)
| action_execute (a : Action) (p : Page) (locator : option Locator)
| short_wait (p : option Page).

Global Instance Call_eq_dec : EqDecision Call.
Proof. solve_decision. Defined.

(** What a run leaves behind: the calls it made on the engine and the
    lines it printed, in program order. *)
Inductive Event :=
| Called (c : Call)
| Printed (msg : string).

Global Instance Event_eq_dec : EqDecision Event.
Proof. solve_decision. Defined.

(** ** The environment *)

(** Everything the program reads from outside itself. *)
Record Env := {
  (** the calls that raise, and what they raise *)
  raises : Call -> option Exn;
  (** [browser.contexts], each context given by its [pages] *)
  contexts : list (list Page);
  (** [bua.utils.check_blocklisted_url] *)
  check_blocklisted_url : string -> bool;
  (** the PNG bytes [page.screenshot] returns *)
  screenshot_png : Page -> list Z;
  (** the reply of [Page.captureScreenshot] over CDP, a dict *)
  capture_reply : Page -> gmap string string;
  (** whether a selector resolves on a page, and to which element *)
  resolve : option Page -> Selector -> option Locator;
  (** the session the backend's API hands out *)
  new_session : Session;
}.

(** ** The instance attributes *)

(** The attributes of the three classes in one record.  [session] and
    [dimensions] belong to the two remote backends, [region],
    [virtual_mouse] and [ad_blocker] to Browserbase only; a class never
    reads an attribute it does not have. *)
Record Self := {
  _playwright : option Playwright;
  _browser : option Browser;
  _page : option Page;
  session : option Session;
  dimensions : Z * Z;
  region : string;
  proxy : bool;
  virtual_mouse : bool;
  ad_blocker : bool;
}.

Definition set_playwright (v : option Playwright) (s : Self) : Self :=
  {| _playwright := v; _browser := _browser s; _page := _page s;
     session := session s; dimensions := dimensions s; region := region s;
     proxy := proxy s; virtual_mouse := virtual_mouse s; ad_blocker := ad_blocker s |}.

Definition set_browser (v : option Browser) (s : Self) : Self :=
  {| _playwright := _playwright s; _browser := v; _page := _page s;
     session := session s; dimensions := dimensions s; region := region s;
     proxy := proxy s; virtual_mouse := virtual_mouse s; ad_blocker := ad_blocker s |}.

Definition set_page (v : option Page) (s : Self) : Self :=
  {| _playwright := _playwright s; _browser := _browser s; _page := v;
     session := session s; dimensions := dimensions s; region := region s;
     proxy := proxy s; virtual_mouse := virtual_mouse s; ad_blocker := ad_blocker s |}.

Definition set_session (v : option Session) (s : Self) : Self :=
  {| _playwright := _playwright s; _browser := _browser s; _page := _page s;
     session := v; dimensions := dimensions s; region := region s;
     proxy := proxy s; virtual_mouse := virtual_mouse s; ad_blocker := ad_blocker s |}.

(** ** The monad of methods *)

Inductive Res (A : Type) :=
| Ok (a : A)
| Raise (e : Exn).
Arguments Ok {A} a.
Arguments Raise {A} e.

(** A method reads the environment, updates the attributes, leaves a trace
    and returns or raises.  Attribute updates made before an exception
    stay, as in Python. *)
Definition M (A : Type) : Type := Env -> Self -> Self * list Event * Res A.

Global Instance M_ret : MRet M := fun A a _ s => (s, [], Ok a).

Global Instance M_bind : MBind M := fun A B f m env s =>
  match m env s with
  | (s1, t1, Ok a) =>
      match f a env s1 with
      | (s2, t2, r) => (s2, t1 ++ t2, r)
      end
  | (s1, t1, Raise e) => (s1, t1, Raise e)
  end.

Definition attrs {A} (x : Self * list Event * Res A) : Self := x.1.1.
Definition trace {A} (x : Self * list Event * Res A) : list Event := x.1.2.
Definition result {A} (x : Self * list Event * Res A) : Res A := x.2.

Definition raise {A} (e : Exn) : M A := fun _ s => (s, [], Raise e).

Definition print (msg : string) : M unit := fun _ s => (s, [Printed msg], Ok tt).

(** A call on the engine is recorded whether it returns or raises. *)
Definition call (c : Call) : M unit := fun env s =>
  (s, [Called c], match raises env c with Some e => Raise e | None => Ok tt end).

Definition get_self : M Self := fun _ s => (s, [], Ok s).
Definition ask : M Env := fun env s => (s, [], Ok env).
Definition modify (f : Self -> Self) : M unit := fun _ s => (f s, [], Ok tt).

(** [obj.attr] where [obj] may be [None]. *)
Definition getattr {A} (obj : option A) (attr : string) : M A :=
  match obj with
  | Some a => mret a
  | None => raise (AttributeError attr)
  end.

(** [self._page.attr]. *)
Definition page_attr (attr : string) : M Page :=
  s ← get_self; getattr (_page s) attr.

(** [try: body except <class matched by catches> as error: handler]. *)
Definition try_except {A} (body : M A) (catches : Exn -> bool)
    (handler : Exn -> M A) : M A := fun env s =>
  match body env s with
  | (s1, t1, Ok a) => (s1, t1, Ok a)
  | (s1, t1, Raise e) =>
      if catches e then
        match handler e env s1 with
        | (s2, t2, r) => (s2, t1 ++ t2, r)
        end
      else (s1, t1, Raise e)
  end.

(** [for x in l: body]. *)
Fixpoint for_each {A} (l : list A) (body : A -> M unit) : M unit :=
  match l with
  | [] => mret tt
  | x :: l' => body x ;; for_each l' body
  end.

(** ** Strings and bytes from the Python library *)

(** [str.lower] on one ASCII character: the letters [A] to [Z] move to
    [a] to [z], every other one stays. *)
Definition lower_ascii (c : ascii) : ascii :=
  let n := N_of_ascii c in
  if ((65 <=? n) && (n <=? 90))%N then ascii_of_N (n + 32) else c.

(** The Kelvin sign U+212A, as the three bytes of its UTF-8 form. *)
Definition kelvin_sign : string :=
  String "226" (String "132" (String "170" EmptyString)).

(** [str.lower] on the text of a key name, held as UTF-8.  ASCII letters
    are lower-cased and the Kelvin sign becomes [k], as in Python.  The
    Kelvin sign is the one character outside ASCII whose lower case is
    ASCII text; the lower case of any other such character lies outside
    ASCII again.  Such characters are left in place here: where Python
    replaces them, its result and this one are both no ASCII text, and
    the key table, the only reader of the result, has ASCII keys only. *)
Fixpoint lower (s : string) : string :=
  match s with
  | EmptyString => EmptyString
  | String c s' =>
      match s' with
      | String c2 (String c3 rest) =>
          if Ascii.eqb c "226" && Ascii.eqb c2 "132" && Ascii.eqb c3 "170"
          then String "k" (lower rest)
          else String (lower_ascii c) (lower s')
      | _ => String (lower_ascii c) (lower s')
      end
  end.

Definition b64_alphabet : string :=
  "ABCDEFGHIJKLMNOPQRSTUVWXYZabcdefghijklmnopqrstuvwxyz0123456789+/".

(** The character of a six-bit group. *)
Definition b64_char (i : Z) : ascii :=
  default "="%char (String.get (Z.to_nat i) b64_alphabet).

(** [base64.b64encode(bs).decode("utf-8")]: three bytes give four
    characters, a last group of one or two bytes is padded with [=]. *)
Fixpoint b64encode (bs : list Z) : string :=
  match bs with
  | [] => ""
  | [a] =>
      let n := Z.shiftl a 16 in
      String (b64_char (Z.shiftr n 18))
        (String (b64_char (Z.land (Z.shiftr n 12) 63)) "==")
  | [a; b] =>
      let n := Z.lor (Z.shiftl a 16) (Z.shiftl b 8) in
      String (b64_char (Z.shiftr n 18))
        (String (b64_char (Z.land (Z.shiftr n 12) 63))
          (String (b64_char (Z.land (Z.shiftr n 6) 63)) "="))
  | a :: b :: c :: rest =>
      let n := Z.lor (Z.lor (Z.shiftl a 16) (Z.shiftl b 8)) c in
      String (b64_char (Z.shiftr n 18))
        (String (b64_char (Z.land (Z.shiftr n 12) 63))
          (String (b64_char (Z.land (Z.shiftr n 6) 63))
            (String (b64_char (Z.land n 63)) (b64encode rest))))
  end.

(** ** The key mapping table *)

Definition CUA_KEY_TO_PLAYWRIGHT_KEY : gmap string string :=
  list_to_map [
    ("/", "Divide");
    ("\", "Backslash");
    ("alt", "Alt");
    ("arrowdown", "ArrowDown");
    ("arrowleft", "ArrowLeft");
    ("arrowright", "ArrowRight");
    ("arrowup", "ArrowUp");
    ("backspace", "Backspace");
    ("capslock", "CapsLock");
    ("cmd", "Meta");
    ("ctrl", "Control");
    ("delete", "Delete");
    ("end", "End");
    ("enter", "Enter");
    ("esc", "Escape");
    ("home", "Home");
    ("insert", "Insert");
    ("option", "Alt");
    ("pagedown", "PageDown");
    ("pageup", "PageUp");
    ("shift", "Shift");
    ("space", " ");
    ("super", "Meta");
    ("tab", "Tab");
    ("win", "Meta")
  ].

(** A point of a drag path, the dict [{"x": ..., "y": ...}]. *)
Record Point := { point_x : Z; point_y : Z }.

(** ** The element locator *)

(** Modelled from the spec: [bua.computers.actions.locate_element] is
    imported by [base_playwright.py] but its module is not among the
    sources.  The spec (4.2) has it try each selector in order against the
    page and return the first element handle that resolves; when all fail,
    resolution fails with a not-found error. *)
Fixpoint locate_element (page : option Page) (selectors : list Selector)
    : M Locator :=
  match selectors with
  | [] => raise ElementResolutionError
  | sel :: rest =>
      env ← ask;
      match resolve env page sel with
      | Some handle => mret handle
      | None => locate_element page rest
      end
  end.

(** ** The DOM tree *)

(** [DomTreeDict] of [computers.py], the tree the extraction script
    returns. *)
Local Unset Elimination Schemes.
Inductive DomTreeDict :=
| DomTreeNode (type text : string) (tagName xpath : option string)
    (attributes : gmap string string)
    (isVisible isInteractive isTopElement isEditable : bool)
    (highlightIndex : option Z) (shadowRoot : bool)
    (children : list DomTreeDict).
Local Set Elimination Schemes.

(** The argument [dom] passes to the extraction script. *)
Record ParsingConfig := {
  highlight_elements : bool;
  focus_element : Z;
  viewport_expansion : Z;
}.


(** ** [BasePlaywrightComputer] *)

Module BasePlaywrightComputer.

Definition get_environment : string := "browser".

Definition get_dimensions (self : Self) : Z * Z := (1280, 1080).

(** The closure [handle_route(route, request)] of [__enter__], given
    [request.url]. *)
Definition handle_route (url : string) : M unit :=
  env ← ask;
  if check_blocklisted_url env url then
    print ("Flagging blocked domain: " +:+ url) ;;
    call (route_abort url)
  else
    call (route_continue url).

(** [__enter__]; the subclass hook [self._get_browser_and_page] is the
    argument. *)
Definition __enter__ (_get_browser_and_page : M (Browser * Page)) : M unit :=
  call sync_playwright_start ;;
  modify (set_playwright (Some playwright_handle)) ;;
  bp ← _get_browser_and_page;
  modify (set_browser (Some bp.1)) ;;
  modify (set_page (Some bp.2)) ;;
  p ← page_attr "route";
  call (page_route p "**/*").

Definition __exit__ : M unit :=
  s ← get_self;
  (if _browser s is Some _ then call browser_close else mret tt) ;;
  (if _playwright s is Some _ then call playwright_stop else mret tt).

(** Capture only the viewport as base64. *)
Definition screenshot : M string :=
  p ← page_attr "screenshot";
  call (page_screenshot p false) ;;
  env ← ask;
  mret (b64encode (screenshot_png env p)).

Definition back : M unit :=
  p ← page_attr "go_back";
  call (page_go_back p).

Definition forward : M unit :=
  p ← page_attr "go_forward";
  call (page_go_forward p).

Definition click (x y : Z) (button : string) : M unit :=
  if decide (button = "back") then back
  else if decide (button = "forward") then forward
  else if decide (button = "wheel") then
    p ← page_attr "mouse";
    call (mouse_wheel p x y)
  else
    let button_mapping : gmap string string :=
      list_to_map [("left", "left"); ("right", "right")] in
    let button_type := default "left" (button_mapping !! button) in
    p ← page_attr "mouse";
    call (mouse_click p x y button_type).

Definition keypress (keys : list string) : M unit :=
  let mapped_keys :=
    (fun key => default key (CUA_KEY_TO_PLAYWRIGHT_KEY !! lower key)) <$> keys in
  for_each mapped_keys (fun key =>
    p ← page_attr "keyboard";
    call (keyboard_down p key)) ;;
  for_each (reverse mapped_keys) (fun key =>
    p ← page_attr "keyboard";
    call (keyboard_up p key)).

Definition drag (path : list Point) : M unit :=
  match path with
  | [] => mret tt
  | first :: rest =>
      p ← page_attr "mouse";
      call (mouse_move p (point_x first) (point_y first)) ;;
      p ← page_attr "mouse";
      call (mouse_down p) ;;
      for_each rest (fun point =>
        p ← page_attr "mouse";
        call (mouse_move p (point_x point) (point_y point))) ;;
      p ← page_attr "mouse";
      call (mouse_up p)
  end.

(** Must be implemented by subclasses. *)
Definition _get_browser_and_page : M (Browser * Page) :=
  raise NotImplementedError.

(** Execute a browser action. *)
Definition execute_action (action : Action) : M unit :=
  match action with
  | BrowserAction _ =>
      p ← page_attr "context";
      call (action_execute action p None)
  | InteractionAction _ selectors =>
      match selectors with
      | None => raise AssertionError
      | Some sels =>
          s ← get_self;
          locator ← locate_element (_page s) sels;
          p ← page_attr "context";
          call (action_execute action p (Some locator))
      end
  | OtherAction type_name =>
      raise (ValueError ("Invalid action type: " +:+ type_name))
  end ;;
  s ← get_self;
  call (short_wait (_page s)).

Definition move (x y : Z) : M unit :=
  p ← page_attr "mouse";
  call (mouse_move p x y).


(** The methods below use operations of the engine that are no
    constructors of [Call]; each operation is a parameter, a computation
    of the engine's own. *)
Section EngineOperations.

(** [page.mouse.dblclick(x, y)] *)
Variable mouse_dblclick : Page -> Z -> Z -> M unit.
(** [page.keyboard.type(text)] *)
Variable keyboard_type : Page -> string -> M unit.
(** [page.evaluate(expression, arg)]; its value is [None] or a tree. *)
Variable page_evaluate :
  Page -> string -> option ParsingConfig -> M (option DomTreeDict).
(** [page.url] *)
Variable page_url : Page -> string.
(** [DOM_TREE_JS_PATH.read_text()] *)
Variable read_text : M string.

Definition get_current_url : M string :=
  p ← page_attr "url";
  mret (page_url p).

Definition double_click (x y : Z) : M unit :=
  p ← page_attr "mouse";
  mouse_dblclick p x y.

Definition scroll (x y scroll_x scroll_y : Z) : M unit :=
  p ← page_attr "mouse";
  call (mouse_move p x y) ;;
  p ← page_attr "evaluate";
  _ ← page_evaluate p
        ("window.scrollBy(" +:+ pretty scroll_x +:+ ", " +:+ pretty scroll_y +:+ ")")
        None;
  mret tt.

Definition type (text : string) : M unit :=
  p ← page_attr "keyboard";
  keyboard_type p text.

Definition dom : M DomTreeDict :=
  js_code ← read_text;
  let parsing_config :=
    {| highlight_elements := true; focus_element := -1;
       viewport_expansion := 500 |} in
  p ← page_attr "evaluate";
  eval ← page_evaluate p js_code (Some parsing_config);
  match eval with
  | None => raise (ValueError "Cannot get DOM from current page")
  | Some tree => mret tree
  end.

End EngineOperations.

End BasePlaywrightComputer.

(** ** [BrowserbaseBrowser] *)

Module BrowserbaseBrowser.

Definition get_dimensions (self : Self) : Z * Z := dimensions self.

(** Keyword arguments left out take their defaults. *)
Definition __init__ (width height : option Z) (region : option string)
    (proxy virtual_mouse ad_blocker : option bool) : Self :=
  {| _playwright := None; _browser := None; _page := None;
     session := None;
     dimensions := (default 1024 width, default 768 height);
     region := default "us-west-2" region;
     proxy := default false proxy;
     virtual_mouse := default true virtual_mouse;
     ad_blocker := default false ad_blocker |}.

(** Create and connect to a Browserbase session. *)
Definition _get_browser_and_page : M (Browser * Page) :=
  s ← get_self;
  let '(width, height) := dimensions s in
  env ← ask;
  call (sessions_create (width, height) (ad_blocker s) (region s) (proxy s)) ;;
  modify (set_session (Some (new_session env))) ;;
  print ("Watch and control this browser live at https://www.browserbase.com/sessions/"
         +:+ session_id (new_session env)) ;;
  _ ← getattr (_playwright s) "chromium";
  call (connect_over_cdp 60000) ;;
  let browser := browser_handle in
  match contexts env with
  | [] => raise IndexError
  | context :: _ =>
      call context_on_page ;;
      (if virtual_mouse s then call context_add_init_script else mret tt) ;;
      match context with
      | [] => raise IndexError
      | page :: _ =>
          call (page_on_close page) ;;
          call (page_goto page "https://bing.com") ;;
          mret (browser, page)
      end
  end.

(** Handle new page creation. *)
Definition _handle_new_page (page : Page) : M unit :=
  print "New page created" ;;
  modify (set_page (Some page)) ;;
  call (page_on_close page).

(** Handle page closure. *)
Definition _handle_page_close (page : Page) : M unit :=
  print "Page closed" ;;
  s ← get_self;
  if decide (_page s = Some page) then
    _ ← getattr (_browser s) "contexts";
    env ← ask;
    match contexts env with
    | [] => raise IndexError
    | pages :: _ =>
        modify (set_page (if pages is [] then None else last pages)) ;;
        if pages is [] then print "Warning: All pages have been closed."
        else mret tt
    end
  else mret tt.

Definition __enter__ : M unit :=
  BasePlaywrightComputer.__enter__ _get_browser_and_page.

(** Clean up resources on exit. *)
Definition __exit__ : M unit :=
  s ← get_self;
  (if _page s is Some p then call (page_close p) else mret tt) ;;
  (if _browser s is Some _ then call browser_close else mret tt) ;;
  (if _playwright s is Some _ then call playwright_stop else mret tt) ;;
  (if session s is Some sess then
     print ("Session completed. View replay at https://browserbase.com/sessions/"
            +:+ session_id sess)
   else mret tt).

(** The body of the [try] block of [screenshot]. *)
Definition cdp_capture : M string :=
  p ← page_attr "context";
  call (new_cdp_session p) ;;
  call (cdp_send p "Page.captureScreenshot") ;;
  env ← ask;
  match capture_reply env p !! "data" with
  | Some data => mret data
  | None => raise (KeyError "data")
  end.

(** Capture a screenshot via CDP. *)
Definition screenshot : M string :=
  try_except cdp_capture is_PlaywrightError (fun error =>
    print ("CDP screenshot failed, falling back to default screenshot: "
           +:+ str_exn error) ;;
    BasePlaywrightComputer.screenshot).

End BrowserbaseBrowser.

(** ** [LumiTehBrowser] *)

Module LumiTehBrowser.

(** Not overridden: the method of the base class. *)
Definition get_dimensions : Self -> Z * Z :=
  BasePlaywrightComputer.get_dimensions.

Definition __init__ (width height : option Z) (proxy : option bool) : Self :=
  {| _playwright := None; _browser := None; _page := None;
     session := None;
     dimensions := (default 1024 width, default 768 height);
     region := "";
     proxy := default false proxy;
     virtual_mouse := false;
     ad_blocker := false |}.

(** Create a LumiTeh session and connect via CDP. *)
Definition _get_browser_and_page : M (Browser * Page) :=
  s ← get_self;
  let '(width, height) := dimensions s in
  env ← ask;
  call sessions_start ;;
  modify (set_session (Some (new_session env))) ;;
  call (sessions_debug_info (session_id (new_session env))) ;;
  _ ← getattr (_playwright s) "chromium";
  call (connect_over_cdp 60000) ;;
  let browser := browser_handle in
  match contexts env with
  | [] => raise IndexError
  | context :: _ =>
      call context_on_page ;;
      match context with
      | [] => raise IndexError
      | page :: _ =>
          call (page_on_close page) ;;
          call (page_goto page "https://bing.com") ;;
          mret (browser, page)
      end
  end.

(** Handle a newly created page. *)
Definition _handle_new_page (page : Page) : M unit :=
  print "New page created" ;;
  modify (set_page (Some page)) ;;
  call (page_on_close page).

(** Handle a page closure. *)
Definition _handle_page_close (page : Page) : M unit :=
  print "Page closed" ;;
  s ← get_self;
  if decide (_page s = Some page) then
    _ ← getattr (_browser s) "contexts";
    env ← ask;
    match contexts env with
    | [] => raise IndexError
    | pages :: _ =>
        modify (set_page (if pages is [] then None else last pages)) ;;
        if pages is [] then print "Warning: All pages have been closed."
        else mret tt
    end
  else mret tt.

Definition __enter__ : M unit :=
  BasePlaywrightComputer.__enter__ _get_browser_and_page.

(** Cleanup resources when exiting context. *)
Definition __exit__ : M unit :=
  s ← get_self;
  (if _page s is Some p then call (page_close p) else mret tt) ;;
  (if _browser s is Some _ then call browser_close else mret tt) ;;
  (if _playwright s is Some _ then call playwright_stop else mret tt) ;;
  (if session s is Some sess then
     print ("Session completed. View replay at https://lumiteh.com/sessions/"
            +:+ session_id sess)
   else mret tt).

(** The body of the [try] block of [screenshot]. *)
Definition cdp_capture : M string :=
  p ← page_attr "context";
  call (new_cdp_session p) ;;
  call (cdp_send p "Page.captureScreenshot") ;;
  env ← ask;
  match capture_reply env p !! "data" with
  | Some data => mret data
  | None => raise (KeyError "data")
  end.

(** Capture a screenshot via CDP or fallback to standard method. *)
Definition screenshot : M string :=
  try_except cdp_capture is_PlaywrightError (fun error =>
    print ("CDP screenshot failed, falling back to standard screenshot: "
           +:+ str_exn error) ;;
    BasePlaywrightComputer.screenshot).

End LumiTehBrowser.

(** ** Requests on a page *)

(** The pages that intercept their requests: those on which
    [page.route("**/*", handle_route)] was called and returned.  A route
    set on a page covers the requests of that page only. *)
Definition routed_pages (env : Env) (t : list Event) : list Page :=
  omap (fun ev =>
          match ev with
          | Called (page_route p pattern) =>
              if decide (pattern = "**/*") then
                if raises env (page_route p pattern) is None then Some p else None
              else None
          | _ => None
          end) t.

(** A request for [url] issued on page [p]: the engine runs the route
    handler when [p] intercepts its requests, and otherwise sends the
    request as it is. *)
Definition request (routed : list Page) (p : Page) (url : string) : M unit :=
  if decide (p ∈ routed) then BasePlaywrightComputer.handle_route url
  else mret tt.

(** ** Sample worlds *)

(** An engine on which every call returns: one context with one page, one
    blocklisted URL, a four-byte screenshot and a CDP reply with data. *)
Definition quiet_env : Env :=
  {| raises := fun _ => None;
     contexts := [[PageRef 0]];
     check_blocklisted_url := fun url =>
       bool_decide (url = "https://ads.example.com/x.js");
     screenshot_png := fun _ => [137; 80; 78; 71];
     capture_reply := fun _ => {["data" := "iVBORw=="]};
     resolve := fun _ _ => None;
     new_session := {| session_id := "s1" |} |}.

(** The same engine with other failing calls, contexts or CDP reply. *)
Definition with_raises (f : Call -> option Exn) (env : Env) : Env :=
  {| raises := f; contexts := contexts env;
     check_blocklisted_url := check_blocklisted_url env;
     screenshot_png := screenshot_png env; capture_reply := capture_reply env;
     resolve := resolve env; new_session := new_session env |}.

Definition with_contexts (cs : list (list Page)) (env : Env) : Env :=
  {| raises := raises env; contexts := cs;
     check_blocklisted_url := check_blocklisted_url env;
     screenshot_png := screenshot_png env; capture_reply := capture_reply env;
     resolve := resolve env; new_session := new_session env |}.

Definition with_capture_reply (reply : Page -> gmap string string) (env : Env) : Env :=
  {| raises := raises env; contexts := contexts env;
     check_blocklisted_url := check_blocklisted_url env;
     screenshot_png := screenshot_png env; capture_reply := reply;
     resolve := resolve env; new_session := new_session env |}.

(** The one call [c] raises [e]. *)
Definition only_raises (c : Call) (e : Exn) : Call -> option Exn :=
  fun c' => if decide (c' = c) then Some e else None.

(** A Browserbase computer with default arguments, inside its [with]
    block: engine started, browser connected, page 0 current. *)
Definition entered_self : Self :=
  set_session (Some {| session_id := "s1" |})
    (set_page (Some (PageRef 0))
      (set_browser (Some browser_handle)
        (set_playwright (Some playwright_handle)
          (BrowserbaseBrowser.__init__ None None None None None None)))).

(** ** Vocabulary of the properties *)

(** The pointer of the engine's mouse.  [mouse.move] and [mouse.click]
    take it to their position.  [mouse.wheel] takes two amounts, scrolls
    by them where the pointer is and leaves the pointer there, as does
    every other call. *)
Definition pointer_step (pos : Z * Z) (ev : Event) : Z * Z :=
  match ev with
  | Called (mouse_move _ x y) => (x, y)
  | Called (mouse_click _ x y _) => (x, y)
  | _ => pos
  end.

Definition pointer_after (start : Z * Z) (t : list Event) : Z * Z :=
  foldl pointer_step start t.

(** The wheel scrolls of a trace that begins with the pointer at [pos]:
    each with the position at which it happens and the amounts by which it
    scrolls. *)
Fixpoint wheel_scrolls (pos : Z * Z) (t : list Event) : list ((Z * Z) * (Z * Z)) :=
  match t with
  | [] => []
  | ev :: t' =>
      match ev with
      | Called (mouse_wheel _ delta_x delta_y) => [(pos, (delta_x, delta_y))]
      | _ => []
      end ++ wheel_scrolls (pointer_step pos ev) t'
  end.

(** A click of a mouse button at a position. *)
Definition is_pointer_click (ev : Event) : bool :=
  match ev with
  | Called (mouse_click _ _ _ _) => true
  | _ => false
  end.

(** How [keypress] maps one key name: the table entry of the lower-cased
    name when there is one, the name itself otherwise. *)
Definition maps_to (key mapped : string) : Prop :=
  match CUA_KEY_TO_PLAYWRIGHT_KEY !! lower key with
  | Some v => mapped = v
  | None => mapped = key
  end.

(** The engine calls of a trace. *)
Definition calls_of (t : list Event) : list Call :=
  omap (fun ev => match ev with Called c => Some c | Printed _ => None end) t.

(** The teardown steps of a computer in order: the remote backends close
    the current page first; every backend then closes the browser
    connection and stops the engine.  A step applies when its attribute
    is set. *)
Definition teardown_calls (remote : bool) (s : Self) : list Call :=
  (if remote then (if _page s is Some p then [page_close p] else []) else [])
  ++ (if _browser s is Some _ then [browser_close] else [])
  ++ (if _playwright s is Some _ then [playwright_stop] else []).

(** An exit that makes the calls [steps] in order and stops at the first
    one that raises. *)
Definition stops_at_first_failure (exit : M unit) (steps : Self -> list Call) : Prop :=
  forall (env : Env) (s : Self),
    ((forall c, c ∈ steps s -> raises env c = None) ->
       result (exit env s) = Ok tt /\
       calls_of (trace (exit env s)) = steps s /\
       attrs (exit env s) = s) /\
    (forall pre c post e,
       steps s = pre ++ c :: post ->
       (forall c', c' ∈ pre -> raises env c' = None) ->
       raises env c = Some e ->
       exit env s = (s, Called <$> (pre ++ [c]), Raise e)).

(** The attributes once [__enter__] has returned. *)
Definition entered (env : Env) (p0 : Page) (s : Self) : Self :=
  set_page (Some p0)
    (set_browser (Some browser_handle)
      (set_session (Some (new_session env))
        (set_playwright (Some playwright_handle) s))).

(** A run that raises [AttributeError] on the first attribute access,
    before any call, print or update. *)
Definition stops_on_attribute {A} (s : Self) (r : Self * list Event * Res A) : Prop :=
  exists attr, r = (s, [], Raise (AttributeError attr)).

(** A computer that was constructed and never entered. *)
Definition fresh_self : Self :=
  BrowserbaseBrowser.__init__ None None None None None None.

(** What the engine reports about the pages of the first context. *)
Inductive PageEvent :=
| page_opened (p : Page)
| page_closed (p : Page).

(** The open pages of the first context once an event has happened: a new
    page is listed last, a closed page is listed no more. *)
Definition pages_after (ev : PageEvent) (pages : list Page) : list Page :=
  match ev with
  | page_opened p => pages ++ [p]
  | page_closed p => filter (fun q => q <> p) pages
  end.

(** The pages on which a trace registers the closure handler. *)
Definition close_handlers (t : list Event) : list Page :=
  omap (fun ev => match ev with Called (page_on_close p) => Some p | _ => None end) t.

(** A run together with what it did. *)
Definition listen {A} (m : M A) : M (list Event) :=
  fun env s =>
    let r := m env s in
    (attrs r, trace r,
     match result r with Ok _ => Ok (trace r) | Raise e => Raise e end).

(** A run on an engine whose first context holds [pages]. *)
Definition with_pages {A} (pages : list Page) (m : M A) : M A :=
  fun env s => m (with_contexts [pages] env) s.

(** The events in order.  A page that opens is answered by the handler the
    bootstrap registered on the context.  A page that closes is answered by
    the closure handler only when that handler was registered on it: the
    pages in [tracked], which are the first page of the context at the
    bootstrap and every page on which a handler has called
    [page.on("close", ...)] since; the closure of any other page reaches
    no handler.  A handler sees the pages as the event left them.  The run
    ends with the tracked and the open pages, or at the first handler that
    raises. *)
Fixpoint react (new_page page_close : Page -> M unit) (evs : list PageEvent)
    (tracked pages : list Page) : M (list Page * list Page) :=
  match evs with
  | [] => mret (tracked, pages)
  | ev :: evs' =>
      let pages' := pages_after ev pages in
      t ← listen (with_pages pages'
                    match ev with
                    | page_opened p => new_page p
                    | page_closed p =>
                        if decide (p ∈ tracked) then page_close p else mret tt
                    end);
      react new_page page_close evs' (tracked ++ close_handlers t) pages'
  end.

(** The current page is an open page; there is none only when no page is
    open. *)
Definition current_page_open (pages : list Page) (s : Self) : Prop :=
  match _page s with
  | Some q => q ∈ pages
  | None => pages = []
  end.

(** The position of a character in the alphabet, from [i] on. *)
Fixpoint b64_find (c : ascii) (alphabet : string) (i : Z) : option Z :=
  match alphabet with
  | EmptyString => None
  | String c' rest => if Ascii.eqb c c' then Some i else b64_find c rest (i + 1)
  end.

Definition b64_index (c : ascii) : option Z := b64_find c b64_alphabet 0.

(** Reading base64 text back: four characters give three bytes, a last
    group padded with [=] gives one or two.  Text that [b64encode] cannot
    produce gives [None]. *)
Fixpoint b64decode (s : string) : option (list Z) :=
  match s with
  | EmptyString => Some []
  | String c1 (String c2 (String c3 (String c4 rest))) =>
      g1 ← b64_index c1;
      g2 ← b64_index c2;
      let b1 := g1 * 4 + g2 / 16 in
      if Ascii.eqb c3 "=" then
        if Ascii.eqb c4 "=" && bool_decide (rest = "") then Some [b1] else None
      else
        g3 ← b64_index c3;
        let b2 := (g2 mod 16) * 16 + g3 / 4 in
        if Ascii.eqb c4 "=" then
          if bool_decide (rest = "") then Some [b1; b2] else None
        else
          g4 ← b64_index c4;
          let b3 := (g3 mod 4) * 64 + g4 in
          tail ← b64decode rest;
          Some (b1 :: b2 :: b3 :: tail)
  | _ => None
  end.

(** The values a Python [bytes] object holds. *)
Definition is_byte (b : Z) : Prop := 0 <= b < 256.

Definition upper_case_letters : string := "ABCDEFGHIJKLMNOPQRSTUVWXYZ".
Definition lower_case_letters : string := "abcdefghijklmnopqrstuvwxyz".

(** [same_up_to_case name k]: the text [k] spells [name] with some of its
    capital letters replaced by the small letter at the same place of the
    alphabet, the Kelvin sign counting as a capital K, and everything else
    as it is. *)
Inductive same_up_to_case : string -> string -> Prop :=
| same_up_to_case_nil :
    same_up_to_case EmptyString EmptyString
| same_up_to_case_same (c : ascii) (name k : string) :
    same_up_to_case name k ->
    same_up_to_case (String c name) (String c k)
| same_up_to_case_letter (i : nat) (capital small : ascii) (name k : string) :
    String.get i upper_case_letters = Some capital ->
    String.get i lower_case_letters = Some small ->
    same_up_to_case name k ->
    same_up_to_case (String capital name) (String small k)
| same_up_to_case_kelvin (name k : string) :
    same_up_to_case name k ->
    same_up_to_case (kelvin_sign +:+ name) (String "k" k).

(** ASCII text without capital letters. *)
Fixpoint small_ascii (k : string) : bool :=
  match k with
  | EmptyString => true
  | String c k' =>
      (N_of_ascii c <? 128)%N && bool_decide (lower_ascii c = c) && small_ascii k'
  end.

(** The name [keypress] passes to the engine for [key]. *)
Definition mapped_key (key : string) : string :=
  default key (CUA_KEY_TO_PLAYWRIGHT_KEY !! lower key).

(** * Properties *)

(** ** The library functions on samples *)

Example b64encode_Man : b64encode [77; 97; 110] = "TWFu".
Proof. reflexivity. Qed.

Example b64encode_Ma : b64encode [77; 97] = "TWE=".
Proof. reflexivity. Qed.

Example b64encode_M : b64encode [77] = "TQ==".
Proof. reflexivity. Qed.

Example lower_mixed : lower "CtRl+[Z@`{" = "ctrl+[z@`{".
Proof. reflexivity. Qed.

Example table_backslash : CUA_KEY_TO_PLAYWRIGHT_KEY !! "\" = Some "Backslash".
Proof. reflexivity. Qed.

Example table_space : CUA_KEY_TO_PLAYWRIGHT_KEY !! lower "SPACE" = Some " ".
Proof. reflexivity. Qed.

(** ** Running the monad *)

Ltac run_m :=
  cbv beta iota zeta delta
    [mbind mret M_bind M_ret page_attr getattr get_self ask modify call
     print raise attrs trace result fst snd] in *.

Lemma bind_run (A B : Type) (m : M A) (f : A -> M B) (env : Env) (s : Self) :
  (m ≫= f) env s
  = match m env s with
    | (s1, t1, Ok a) =>
        match f a env s1 with
        | (s2, t2, r) => (s2, t1 ++ t2, r)
        end
    | (s1, t1, Raise e) => (s1, t1, Raise e)
    end.
Proof. reflexivity. Qed.

Lemma page_attr_bind (B : Type) (attr : string) (k : Page -> M B) (env : Env)
    (s : Self) (p : Page) :
  _page s = Some p ->
  (page_attr attr ≫= k) env s = k p env s.
Proof.
  intros Hp. run_m. rewrite Hp. destruct (k p env s) as [[s2 t2] r]. reflexivity.
Qed.

Lemma call_bind_ok (B : Type) (c : Call) (k : unit -> M B) (env : Env) (s : Self) :
  raises env c = None ->
  (call c ≫= k) env s
  = match k tt env s with
    | (s2, t2, r) => (s2, Called c :: t2, r)
    end.
Proof. intros Hc. run_m. rewrite Hc. reflexivity. Qed.

Lemma call_bind_raise (B : Type) (c : Call) (k : unit -> M B) (env : Env)
    (s : Self) (e : Exn) :
  raises env c = Some e ->
  (call c ≫= k) env s = (s, [Called c], Raise e).
Proof. intros Hc. run_m. rewrite Hc. reflexivity. Qed.

(** A call on an attribute of the current page. *)
Lemma page_call_run (attr : string) (f : Page -> Call) (env : Env) (s : Self)
    (p : Page) :
  _page s = Some p ->
  (q ← page_attr attr; call (f q)) env s
  = (s, [Called (f p)],
     match raises env (f p) with Some e => Raise e | None => Ok tt end).
Proof. intros Hp. run_m. rewrite Hp. reflexivity. Qed.

(** A loop of calls on the current page, none of which raises. *)
Lemma for_each_calls (A : Type) (f : Page -> A -> Call) (attr : string)
    (l : list A) (env : Env) (s : Self) (p : Page) :
  _page s = Some p ->
  (forall a, a ∈ l -> raises env (f p a) = None) ->
  for_each l (fun a => q ← page_attr attr; call (f q a)) env s
  = (s, Called <$> (f p <$> l), Ok tt).
Proof.
  intros Hp. induction l as [|a l IH]; intros Hok.
  - reflexivity.
  - cbn [for_each]. rewrite bind_run.
    rewrite (page_call_run attr (fun q => f q a) env s p Hp).
    rewrite (Hok a) by left. rewrite IH; [reflexivity|].
    intros b Hb. apply Hok. right. exact Hb.
Qed.

(** ** Click *)

(** C2.  On the current page [p], [click x y button] goes back in history
    for ["back"] and forward for ["forward"] and issues no pointer click;
    for any other button that is not ["right"] or ["wheel"] it issues one
    left click at [(x, y)].  For ["wheel"] it issues one wheel call and no
    click, but the call gets [x] and [y] as the amounts to scroll by and
    the pointer is not moved: the page is scrolled by [(x, y)] where the
    pointer already is, and a scroll at [(x, y)] happens only when the
    pointer was there before. *)
Theorem click_dispatch (env : Env) (s : Self) (p : Page) (x y : Z) (button : string) :
  _page s = Some p ->
  let t := trace (BasePlaywrightComputer.click x y button env s) in
  (button = "back" ->
     t = [Called (page_go_back p)] /\ Forall (fun ev => is_pointer_click ev = false) t) /\
  (button = "forward" ->
     t = [Called (page_go_forward p)] /\ Forall (fun ev => is_pointer_click ev = false) t) /\
  (button = "wheel" ->
     t = [Called (mouse_wheel p x y)] /\
     Forall (fun ev => is_pointer_click ev = false) t /\
     (forall start,
        pointer_after start t = start /\
        wheel_scrolls start t = [(start, (x, y))] /\
        (start <> (x, y) -> forall amounts, (x, y, amounts) ∉ wheel_scrolls start t))) /\
  (button <> "back" -> button <> "forward" -> button <> "wheel" -> button <> "right" ->
     t = [Called (mouse_click p x y "left")]).
Proof.
  intros Hp t. subst t. unfold BasePlaywrightComputer.click.
  assert (Hnav : forall f : Page -> Call,
             (forall q, is_pointer_click (Called (f q)) = false) ->
             trace ((q ← page_attr "mouse"; call (f q)) env s) = [Called (f p)] /\
             Forall (fun ev => is_pointer_click ev = false)
               (trace ((q ← page_attr "mouse"; call (f q)) env s))).
  { intros f Hf. rewrite (page_call_run "mouse" f env s p Hp). cbn [trace fst snd].
    split; [reflexivity|]. constructor; [apply Hf | constructor]. }
  split; [|split; [|split]].
  - intros ->. simpl. unfold BasePlaywrightComputer.back.
    rewrite (page_call_run "go_back" page_go_back env s p Hp). cbn [trace fst snd].
    split; [reflexivity|]. repeat constructor.
  - intros ->. simpl. unfold BasePlaywrightComputer.forward.
    rewrite (page_call_run "go_forward" page_go_forward env s p Hp). cbn [trace fst snd].
    split; [reflexivity|]. repeat constructor.
  - intros ->. simpl.
    destruct (Hnav (fun q => mouse_wheel q x y) (fun _ => eq_refl)) as [Ht Hnone].
    split; [exact Ht|]. split; [exact Hnone|].
    intros start. rewrite Ht. split; [reflexivity|]. split; [reflexivity|].
    intros Hstart amounts Hin. cbn in Hin.
    apply list_elem_of_singleton in Hin. apply Hstart. congruence.
  - intros Hb Hf Hw Hr. repeat case_decide; try congruence.
    assert (Hleft : default "left"
              ((list_to_map [("left", "left"); ("right", "right")] : gmap string string)
                 !! button) = "left").
    { simpl. destruct (decide (button = "left")) as [->|Hl]; [reflexivity|].
      rewrite lookup_insert_ne by congruence.
      rewrite lookup_insert_ne by congruence.
      rewrite lookup_empty. reflexivity. }
    rewrite (page_call_run "mouse"
               (fun q => mouse_click q x y
                  (default "left"
                     ((list_to_map [("left", "left"); ("right", "right")]
                        : gmap string string) !! button))) env s p Hp).
    cbn [trace fst snd]. rewrite Hleft. reflexivity.
Qed.

Lemma click_dispatch_witness :
  _page entered_self = Some (PageRef 0) /\
  trace (BasePlaywrightComputer.click 10 20 "back" quiet_env entered_self)
    = [Called (page_go_back (PageRef 0))] /\
  trace (BasePlaywrightComputer.click 10 20 "wheel" quiet_env entered_self)
    = [Called (mouse_wheel (PageRef 0) 10 20)] /\
  trace (BasePlaywrightComputer.click 10 20 "middle" quiet_env entered_self)
    = [Called (mouse_click (PageRef 0) 10 20 "left")].
Proof.
  split; [reflexivity|].
  split; [apply (click_dispatch quiet_env entered_self (PageRef 0) 10 20 "back");
          reflexivity|].
  split; [apply (click_dispatch quiet_env entered_self (PageRef 0) 10 20 "wheel");
          reflexivity|].
  apply (click_dispatch quiet_env entered_self (PageRef 0) 10 20 "middle");
    [reflexivity | discriminate..].
Defined.

(** C2 at the failing input.  With the pointer at (0, 0), a click of the
    wheel at (100, 200) scrolls the page by (100, 200) at (0, 0) and
    leaves the pointer at (0, 0); there is no scroll at (100, 200). *)
Example click_wheel_scrolls_by :
  wheel_scrolls (0, 0)
    (trace (BasePlaywrightComputer.click 100 200 "wheel" quiet_env entered_self))
  = [((0, 0), (100, 200))] /\
  pointer_after (0, 0)
    (trace (BasePlaywrightComputer.click 100 200 "wheel" quiet_env entered_self))
  = (0, 0) /\
  pointer_after (0, 0)
    (trace (BasePlaywrightComputer.click 100 200 "left" quiet_env entered_self))
  = (100, 200).
Proof. repeat split. Qed.

(** ** Actions without selectors *)

(** C1.  [execute_action] on an [InteractionAction] whose selector list is
    missing or empty raises (the assertion fails, or the locator finds no
    element) before anything is called on the engine: no action is
    executed against any element, and no attribute changes. *)
Theorem execute_action_without_selectors (env : Env) (s : Self) (verb : string)
    (selectors : option (list Selector)) :
  selectors = None \/ selectors = Some [] ->
  let r := BasePlaywrightComputer.execute_action
             (InteractionAction verb selectors) env s in
  (selectors = None -> result r = Raise AssertionError) /\
  (selectors = Some [] -> result r = Raise ElementResolutionError) /\
  (forall a p loc, Called (action_execute a p loc) ∉ trace r) /\
  trace r = [] /\
  attrs r = s.
Proof.
  intros [-> | ->]; cbv zeta.
  - repeat split; try discriminate; try reflexivity.
    intros a p loc Hin. cbn in Hin. inversion Hin.
  - repeat split; try discriminate; try reflexivity.
    intros a p loc Hin. cbn in Hin. inversion Hin.
Qed.

Lemma execute_action_without_selectors_witness :
  (Some ([] : list Selector) = None \/ Some ([] : list Selector) = Some []) /\
  result (BasePlaywrightComputer.execute_action
            (InteractionAction "click" (Some [])) quiet_env entered_self)
    = Raise ElementResolutionError /\
  trace (BasePlaywrightComputer.execute_action
           (InteractionAction "click" (Some [])) quiet_env entered_self) = [].
Proof.
  split; [right; reflexivity|].
  pose proof (execute_action_without_selectors quiet_env entered_self "click"
                (Some []) (or_intror eq_refl)) as (_ & He & _ & Ht & _).
  split; [apply He; reflexivity | exact Ht].
Defined.

(** With a selector that resolves, the action is executed against the
    element found, and the settle delay follows. *)
Lemma execute_action_resolved (env : Env) (s : Self) (p : Page) (verb : string)
    (sel : Selector) (rest : list Selector) (handle : Locator) :
  _page s = Some p ->
  resolve env (Some p) sel = Some handle ->
  (forall c, raises env c = None) ->
  BasePlaywrightComputer.execute_action
    (InteractionAction verb (Some (sel :: rest))) env s
  = (s,
     [ Called (action_execute (InteractionAction verb (Some (sel :: rest))) p
                 (Some handle));
       Called (short_wait (Some p)) ],
     Ok tt).
Proof.
  intros Hp Hres Hq. unfold BasePlaywrightComputer.execute_action.
  cbn [locate_element]. run_m. rewrite Hp, Hres. cbv beta iota.
  rewrite Hp. cbv beta iota. rewrite !Hq, Hp. reflexivity.
Qed.

(** ** Page closure *)

(** C3.  When the page that closes is the current page of a connected
    computer, the handler of either remote backend makes the last page of
    the first context the current page; when that context has no page left
    it clears the current page and prints a warning. *)
Theorem page_close_current (env : Env) (s : Self) (page : Page) (b : Browser)
    (pages : list Page) (rest : list (list Page)) (handler : Page -> M unit) :
  handler = BrowserbaseBrowser._handle_page_close \/
  handler = LumiTehBrowser._handle_page_close ->
  _page s = Some page ->
  _browser s = Some b ->
  contexts env = pages :: rest ->
  let r := handler page env s in
  result r = Ok tt /\
  attrs r = set_page (last pages) s /\
  _page (attrs r) = last pages /\
  (pages = [] ->
     _page (attrs r) = None /\
     trace r = [Printed "Page closed"; Printed "Warning: All pages have been closed."]) /\
  (pages <> [] ->
     (exists q, last pages = Some q /\ _page (attrs r) = Some q) /\
     trace r = [Printed "Page closed"]).
Proof.
  intros Hh Hp Hb Hc r.
  assert (Hr : r = BrowserbaseBrowser._handle_page_close page env s).
  { subst r. destruct Hh as [-> | ->]; reflexivity. }
  clear Hh. rewrite Hr. clear Hr r.
  unfold BrowserbaseBrowser._handle_page_close. run_m.
  rewrite Hp. destruct (decide (Some page = Some page)) as [_|Hne]; [|congruence].
  rewrite Hb. cbv beta iota. rewrite Hc.
  destruct pages as [|q pages]; simpl.
  - repeat split; try congruence.
  - repeat split; try congruence.
    destruct (last (q :: pages)) as [q'|] eqn:Hl.
    + exists q'. split; reflexivity.
    + apply last_None in Hl. discriminate.
Qed.

Lemma page_close_current_witness :
  (BrowserbaseBrowser._handle_page_close = BrowserbaseBrowser._handle_page_close \/
   BrowserbaseBrowser._handle_page_close = LumiTehBrowser._handle_page_close) /\
  _page entered_self = Some (PageRef 0) /\
  _browser entered_self = Some browser_handle /\
  contexts (with_contexts [[PageRef 3; PageRef 2]; [PageRef 7]] quiet_env)
    = [PageRef 3; PageRef 2] :: [[PageRef 7]] /\
  _page (attrs (BrowserbaseBrowser._handle_page_close (PageRef 0)
                  (with_contexts [[PageRef 3; PageRef 2]; [PageRef 7]] quiet_env)
                  entered_self))
    = Some (PageRef 2).
Proof.
  repeat (split; [first [left; reflexivity | reflexivity]|]).
  pose proof (page_close_current
                (with_contexts [[PageRef 3; PageRef 2]; [PageRef 7]] quiet_env)
                entered_self (PageRef 0) browser_handle [PageRef 3; PageRef 2]
                [[PageRef 7]] BrowserbaseBrowser._handle_page_close
                (or_introl eq_refl) eq_refl eq_refl eq_refl) as (_ & _ & H & _).
  exact H.
Defined.

(** Before the connection is stored in [_browser], the closure of the
    current page raises and leaves the current page as it was. *)
Lemma page_close_current_unconnected (env : Env) (s : Self) (page : Page) :
  _page s = Some page ->
  _browser s = None ->
  BrowserbaseBrowser._handle_page_close page env s
  = (s, [Printed "Page closed"], Raise (AttributeError "contexts")).
Proof.
  intros Hp Hb. unfold BrowserbaseBrowser._handle_page_close. run_m.
  rewrite Hp. destruct (decide (Some page = Some page)) as [_|Hne]; [|congruence].
  rewrite Hb. reflexivity.
Qed.

(** C10.  When the page that closes is not the current page, the handler
    of either remote backend only logs the closure: the attributes, and
    with them the current page, stay as they are and no warning is
    printed. *)
Theorem page_close_background (env : Env) (s : Self) (page : Page)
    (handler : Page -> M unit) :
  handler = BrowserbaseBrowser._handle_page_close \/
  handler = LumiTehBrowser._handle_page_close ->
  _page s <> Some page ->
  handler page env s = (s, [Printed "Page closed"], Ok tt).
Proof.
  intros Hh Hp.
  assert (Hr : handler page env s = BrowserbaseBrowser._handle_page_close page env s).
  { destruct Hh as [-> | ->]; reflexivity. }
  rewrite Hr. unfold BrowserbaseBrowser._handle_page_close. run_m.
  destruct (decide (_page s = Some page)) as [Heq|_]; [contradiction|].
  reflexivity.
Qed.

Lemma page_close_background_witness :
  (LumiTehBrowser._handle_page_close = BrowserbaseBrowser._handle_page_close \/
   LumiTehBrowser._handle_page_close = LumiTehBrowser._handle_page_close) /\
  _page entered_self <> Some (PageRef 5) /\
  LumiTehBrowser._handle_page_close (PageRef 5) quiet_env entered_self
    = (entered_self, [Printed "Page closed"], Ok tt).
Proof.
  split; [right; reflexivity|].
  split; [discriminate|].
  apply (page_close_background quiet_env entered_self (PageRef 5)
           LumiTehBrowser._handle_page_close); [right; reflexivity | discriminate].
Defined.

(** ** Key chords *)

(** Away from the first byte of the Kelvin sign, [lower] works on the
    first character alone. *)
Lemma lower_cons (c : ascii) (s : string) :
  c <> "226"%char ->
  lower (String c s) = String (lower_ascii c) (lower s).
Proof.
  intros Hc. cbn [lower]. destruct s as [|c2 [|c3 rest]]; try reflexivity.
  destruct (Ascii.eqb_spec c "226") as [Heq|_]; [contradiction | reflexivity].
Qed.

Lemma lower_kelvin (s : string) : lower (kelvin_sign +:+ s) = String "k" (lower s).
Proof. reflexivity. Qed.

(** The two alphabets, letter by letter. *)
Lemma letters_lower (i : nat) (capital small : ascii) :
  String.get i upper_case_letters = Some capital ->
  String.get i lower_case_letters = Some small ->
  lower_ascii capital = small /\ capital <> "226"%char /\
  (N_of_ascii small <? 128)%N = true /\ lower_ascii small = small.
Proof.
  do 26 (destruct i as [|i];
         [cbn; intros Hc Hs; injection Hc as <-; injection Hs as <-;
          repeat split; discriminate|]).
  cbn. discriminate.
Qed.

Lemma capital_letter (c : ascii) :
  lower_ascii c <> c ->
  exists i,
    String.get i upper_case_letters = Some c /\
    String.get i lower_case_letters = Some (lower_ascii c).
Proof.
  intros Hc. exists (N.to_nat (N_of_ascii c) - 65)%nat. revert Hc.
  destruct c as [[] [] [] [] [] [] [] []]; cbn; intros Hc;
    solve [contradiction Hc; reflexivity | split; reflexivity].
Qed.

(** A name that is [k] up to case has [k] as its lower case, when [k] is
    ASCII text without capital letters. *)
Lemma same_up_to_case_lower (name k : string) :
  same_up_to_case name k -> small_ascii k = true -> lower name = k.
Proof.
  induction 1 as [|c name k _ IH|i capital small name k Hup Hlow _ IH|name k _ IH];
    cbn [small_ascii]; intros Hk.
  - reflexivity.
  - apply andb_prop in Hk as [Hk Hrest]. apply andb_prop in Hk as [Hc Hfix].
    apply bool_decide_eq_true_1 in Hfix.
    rewrite lower_cons, Hfix, (IH Hrest); [reflexivity|].
    intros ->. discriminate Hc.
  - apply andb_prop in Hk as [_ Hrest].
    destruct (letters_lower i capital small Hup Hlow) as (Hl & Hne & _).
    rewrite lower_cons, Hl, (IH Hrest) by exact Hne. reflexivity.
  - apply andb_prop in Hk as [_ Hrest].
    rewrite lower_kelvin, (IH Hrest). reflexivity.
Qed.

(** Every name is its own lower case up to case. *)
Lemma lower_same_up_to_case (name : string) : same_up_to_case name (lower name).
Proof.
  assert (Hall : forall (n : nat) (name : string),
            (String.length name <= n)%nat -> same_up_to_case name (lower name)).
  { clear name. induction n as [|n IH]; intros name Hlen.
    - destruct name; [constructor | cbn in Hlen; lia].
    - destruct name as [|c s']; [constructor|].
      assert (Hstep : same_up_to_case (String c s') (String (lower_ascii c) (lower s'))).
      { destruct (decide (lower_ascii c = c)) as [Heq|Hne].
        - rewrite Heq. apply same_up_to_case_same, IH. cbn in Hlen. lia.
        - destruct (capital_letter c Hne) as (i & Hup & Hlow).
          apply (same_up_to_case_letter i c (lower_ascii c) s' (lower s') Hup Hlow).
          apply IH. cbn in Hlen. lia. }
      cbn [lower]. destruct s' as [|c2 [|c3 rest]]; try exact Hstep.
      destruct (Ascii.eqb_spec c "226") as [->|_]; [|exact Hstep].
      destruct (Ascii.eqb_spec c2 "132") as [->|_]; [|exact Hstep].
      destruct (Ascii.eqb_spec c3 "170") as [->|_]; [|exact Hstep].
      cbn [andb]. apply (same_up_to_case_kelvin rest (lower rest)), IH.
      cbn in Hlen. lia. }
  apply (Hall (String.length name)). lia.
Qed.

Lemma table_keys_small_ascii :
  map_Forall (fun k _ => small_ascii k = true) CUA_KEY_TO_PLAYWRIGHT_KEY.
Proof. apply (bool_decide_unpack _). vm_compute. reflexivity. Qed.

(** Names that differ in case only are mapped alike when the table has
    their lower-case form. *)
Lemma maps_to_ignores_case (key key' mapped : string) :
  lower key = lower key' ->
  is_Some (CUA_KEY_TO_PLAYWRIGHT_KEY !! lower key) ->
  maps_to key mapped ->
  maps_to key' mapped.
Proof.
  unfold maps_to. intros <- [v ->] ->. reflexivity.
Qed.

(** A name without entry is passed on as it is. *)
Lemma maps_to_absent (key mapped : string) :
  CUA_KEY_TO_PLAYWRIGHT_KEY !! lower key = None ->
  maps_to key mapped ->
  mapped = key.
Proof. unfold maps_to. intros ->. trivial. Qed.

(** In a list followed by its mirror image, the element at [i] comes back
    at the position [i] from the end. *)
Lemma lookup_mirror (A B : Type) (f g : A -> B) (l : list A) (i : nat) (a : A) :
  l !! i = Some a ->
  ((f <$> l) ++ (g <$> reverse l)) !! i = Some (f a) /\
  ((f <$> l) ++ (g <$> reverse l)) !! (2 * length l - 1 - i)%nat = Some (g a).
Proof.
  intros Hi. pose proof (lookup_lt_Some _ _ _ Hi) as Hlt. split.
  - rewrite lookup_app_l by (rewrite length_fmap; exact Hlt).
    rewrite list_lookup_fmap, Hi. reflexivity.
  - rewrite lookup_app_r by (rewrite length_fmap; lia).
    rewrite length_fmap, list_lookup_fmap.
    rewrite reverse_lookup by lia.
    replace (length l - S (2 * length l - 1 - i - length l))%nat with i by lia.
    rewrite Hi. reflexivity.
Qed.

(** C6.  On the current page [p] of an engine on which the keyboard
    calls of this chord return, [keypress keys] maps every name through
    the key table without regard to case: a name that is a key of the
    table up to case is replaced by the value of that key, a name that is
    no key of the table up to case is passed on as it was given.  The
    mapped keys are pressed in the listed order and then released in the
    reverse order: the key pressed at position [i] is released at position
    [i] from the end.  The list may hold a key twice. *)
Theorem keypress_chord (env : Env) (s : Self) (p : Page) (keys : list string) :
  _page s = Some p ->
  (forall key, key ∈ keys ->
     raises env (keyboard_down p (mapped_key key)) = None /\
     raises env (keyboard_up p (mapped_key key)) = None) ->
  exists mapped : list string,
    Forall2 maps_to keys mapped /\
    (forall (i : nat) (key : string),
       keys !! i = Some key ->
       (forall k v,
          CUA_KEY_TO_PLAYWRIGHT_KEY !! k = Some v -> same_up_to_case key k ->
          mapped !! i = Some v) /\
       ((forall k, is_Some (CUA_KEY_TO_PLAYWRIGHT_KEY !! k) -> ~ same_up_to_case key k) ->
        mapped !! i = Some key)) /\
    BasePlaywrightComputer.keypress keys env s
    = (s,
       (Called <$> (keyboard_down p <$> mapped))
         ++ (Called <$> (keyboard_up p <$> reverse mapped)),
       Ok tt) /\
    (forall (i : nat) (m : string),
       mapped !! i = Some m ->
       trace (BasePlaywrightComputer.keypress keys env s) !! i
         = Some (Called (keyboard_down p m)) /\
       trace (BasePlaywrightComputer.keypress keys env s)
           !! (2 * length keys - 1 - i)%nat
         = Some (Called (keyboard_up p m))).
Proof.
  intros Hp Hq.
  set (mapped := (fun key => default key (CUA_KEY_TO_PLAYWRIGHT_KEY !! lower key))
                   <$> keys).
  assert (Hmapped : forall m, m ∈ mapped ->
            raises env (keyboard_down p m) = None /\ raises env (keyboard_up p m) = None).
  { intros m Hm. apply list_elem_of_fmap in Hm as (key & -> & Hkey).
    apply (Hq key Hkey). }
  assert (Hrun : BasePlaywrightComputer.keypress keys env s
                 = (s,
                    (Called <$> (keyboard_down p <$> mapped))
                      ++ (Called <$> (keyboard_up p <$> reverse mapped)),
                    Ok tt)).
  { unfold BasePlaywrightComputer.keypress. cbv zeta. fold mapped. rewrite bind_run.
    rewrite (for_each_calls string keyboard_down "keyboard" _ env s p Hp)
      by (intros m Hm; apply Hmapped, Hm).
    rewrite (for_each_calls string keyboard_up "keyboard" _ env s p Hp)
      by (intros m Hm; apply Hmapped, elem_of_reverse, Hm).
    reflexivity. }
  exists mapped. split; [|split; [|split; [exact Hrun|]]].
  - apply Forall2_fmap_r, Forall_Forall2_diag, Forall_forall.
    intros key _. unfold compose, maps_to.
    destruct (CUA_KEY_TO_PLAYWRIGHT_KEY !! lower key); reflexivity.
  - intros i key Hi. subst mapped. rewrite list_lookup_fmap, Hi.
    cbn [fmap option_fmap option_map]. split.
    + intros k v Hk Hsame.
      rewrite (same_up_to_case_lower key k Hsame (table_keys_small_ascii k v Hk)), Hk.
      reflexivity.
    + intros Hnone.
      destruct (CUA_KEY_TO_PLAYWRIGHT_KEY !! lower key) as [v|] eqn:Hk; [|reflexivity].
      exfalso. apply (Hnone (lower key)); [exists v; exact Hk|].
      apply lower_same_up_to_case.
  - intros i m Hi. rewrite Hrun. cbn [trace fst snd].
    rewrite <- !list_fmap_compose.
    replace (length keys) with (length mapped) by apply length_fmap.
    apply (lookup_mirror _ _ (Called ∘ keyboard_down p) (Called ∘ keyboard_up p)
             mapped i m Hi).
Qed.

(** An engine with a keyboard that knows no key named foo. *)
Lemma keypress_chord_witness :
  _page entered_self = Some (PageRef 0) /\
  (forall key, key ∈ ["CTRL"; "Shift"; "x"; "x"] ->
     raises (with_raises (only_raises (keyboard_down (PageRef 0) "foo")
                            (PlaywrightError "Unknown key: foo")) quiet_env)
       (keyboard_down (PageRef 0) (mapped_key key)) = None /\
     raises (with_raises (only_raises (keyboard_down (PageRef 0) "foo")
                            (PlaywrightError "Unknown key: foo")) quiet_env)
       (keyboard_up (PageRef 0) (mapped_key key)) = None) /\
  exists mapped : list string,
    mapped !! 0%nat = Some "Control" /\
    mapped !! 2%nat = Some "x" /\
    BasePlaywrightComputer.keypress ["CTRL"; "Shift"; "x"; "x"]
      (with_raises (only_raises (keyboard_down (PageRef 0) "foo")
                      (PlaywrightError "Unknown key: foo")) quiet_env)
      entered_self
    = (entered_self,
       (Called <$> (keyboard_down (PageRef 0) <$> mapped))
         ++ (Called <$> (keyboard_up (PageRef 0) <$> reverse mapped)),
       Ok tt).
Proof.
  assert (Hq : forall key, key ∈ ["CTRL"; "Shift"; "x"; "x"] ->
     raises (with_raises (only_raises (keyboard_down (PageRef 0) "foo")
                            (PlaywrightError "Unknown key: foo")) quiet_env)
       (keyboard_down (PageRef 0) (mapped_key key)) = None /\
     raises (with_raises (only_raises (keyboard_down (PageRef 0) "foo")
                            (PlaywrightError "Unknown key: foo")) quiet_env)
       (keyboard_up (PageRef 0) (mapped_key key)) = None).
  { intros key Hkey.
    repeat (apply elem_of_cons in Hkey as [->|Hkey]; [split; reflexivity|]).
    apply elem_of_nil in Hkey. contradiction. }
  split; [reflexivity|]. split; [exact Hq|].
  destruct (keypress_chord _ entered_self (PageRef 0) ["CTRL"; "Shift"; "x"; "x"]
              eq_refl Hq) as (mapped & _ & Hpin & Hrun & _).
  exists mapped. split; [|split; [|exact Hrun]].
  - apply (proj1 (Hpin 0%nat "CTRL" eq_refl) "ctrl" "Control" eq_refl).
    apply (same_up_to_case_letter 2 "C" "c"); [reflexivity..|].
    apply (same_up_to_case_letter 19 "T" "t"); [reflexivity..|].
    apply (same_up_to_case_letter 17 "R" "r"); [reflexivity..|].
    apply (same_up_to_case_letter 11 "L" "l"); [reflexivity..|].
    constructor.
  - apply (proj2 (Hpin 2%nat "x" eq_refl)).
    intros k Hk Hsame.
    rewrite <- (same_up_to_case_lower "x" k Hsame) in Hk.
    + destruct Hk as (v & Hv). discriminate Hv.
    + destruct Hk as (v & Hv). exact (table_keys_small_ascii k v Hv).
Defined.

(** A name spelled with the Kelvin sign for its k. *)
Example keypress_kelvin_sign :
  mapped_key ("bac" +:+ kelvin_sign +:+ "space") = "Backspace" /\
  same_up_to_case ("bac" +:+ kelvin_sign +:+ "space") "backspace".
Proof.
  split; [reflexivity|].
  do 3 apply same_up_to_case_same. apply (same_up_to_case_kelvin "space" "space").
  do 5 apply same_up_to_case_same. constructor.
Qed.

(** The chord ctrl+shift+x, with the last key given twice. *)
Example keypress_ctrl_shift_x_x :
  trace (BasePlaywrightComputer.keypress ["CTRL"; "Shift"; "x"; "x"] quiet_env
           entered_self)
  = [ Called (keyboard_down (PageRef 0) "Control");
      Called (keyboard_down (PageRef 0) "Shift");
      Called (keyboard_down (PageRef 0) "x");
      Called (keyboard_down (PageRef 0) "x");
      Called (keyboard_up (PageRef 0) "x");
      Called (keyboard_up (PageRef 0) "x");
      Called (keyboard_up (PageRef 0) "Shift");
      Called (keyboard_up (PageRef 0) "Control") ].
Proof. reflexivity. Qed.

(** ** Drag *)

Lemma filter_moves_nil (p : Page) (c : Call) (points : list Point) :
  (forall x y, c <> mouse_move p x y) ->
  filter (fun ev => ev = Called c)
    (Called <$> ((fun point => mouse_move p (point_x point) (point_y point)) <$> points))
  = [].
Proof.
  intros Hc. induction points as [|pt points IH]; [reflexivity|].
  cbn [fmap list_fmap]. rewrite filter_cons_False; [exact IH|].
  intros Heq. injection Heq as Heq. symmetry in Heq. exact (Hc _ _ Heq).
Qed.

(** C7.  [drag []] does nothing at all.  On the current page [p] of an
    engine whose mouse calls return, a drag along [first :: rest] moves to
    [first], presses the button, moves to every point of [rest] in order
    and releases the button; the button goes down once and up once. *)
Theorem drag_gesture :
  (forall env s, BasePlaywrightComputer.drag [] env s = (s, [], Ok tt)) /\
  (forall env s p first rest,
     _page s = Some p ->
     (forall x y, raises env (mouse_move p x y) = None) ->
     raises env (mouse_down p) = None ->
     raises env (mouse_up p) = None ->
     let t := Called <$>
                ([mouse_move p (point_x first) (point_y first); mouse_down p]
                 ++ ((fun point => mouse_move p (point_x point) (point_y point)) <$> rest)
                 ++ [mouse_up p]) in
     BasePlaywrightComputer.drag (first :: rest) env s = (s, t, Ok tt) /\
     length (filter (fun ev => ev = Called (mouse_down p)) t) = 1%nat /\
     length (filter (fun ev => ev = Called (mouse_up p)) t) = 1%nat).
Proof.
  split; [reflexivity|].
  intros env s p first rest Hp Hmove Hdown Hup t. subst t. split; [|split].
  - unfold BasePlaywrightComputer.drag.
    rewrite (page_attr_bind _ "mouse" _ env s p Hp), call_bind_ok by apply Hmove.
    rewrite (page_attr_bind _ "mouse" _ env s p Hp), call_bind_ok by apply Hdown.
    rewrite bind_run.
    rewrite (for_each_calls Point
               (fun q point => mouse_move q (point_x point) (point_y point))
               "mouse" rest env s p Hp) by (intros pt _; apply Hmove).
    rewrite (page_call_run "mouse" mouse_up env s p Hp), Hup.
    cbn [app fmap list_fmap]. rewrite fmap_app. reflexivity.
  - cbn [app fmap list_fmap]. rewrite fmap_app.
    rewrite filter_cons_False by discriminate.
    rewrite filter_cons_True by reflexivity.
    rewrite filter_app, filter_moves_nil by discriminate.
    cbn [app fmap list_fmap]. rewrite filter_cons_False by discriminate.
    reflexivity.
  - cbn [app fmap list_fmap]. rewrite fmap_app.
    rewrite filter_cons_False by discriminate.
    rewrite filter_cons_False by discriminate.
    rewrite filter_app, filter_moves_nil by discriminate.
    cbn [app fmap list_fmap]. rewrite filter_cons_True by reflexivity.
    reflexivity.
Qed.

Lemma drag_gesture_witness :
  _page entered_self = Some (PageRef 0) /\
  BasePlaywrightComputer.drag
    [ {| point_x := 1; point_y := 2 |}; {| point_x := 3; point_y := 4 |};
      {| point_x := 5; point_y := 6 |} ] quiet_env entered_self
  = (entered_self,
     [ Called (mouse_move (PageRef 0) 1 2); Called (mouse_down (PageRef 0));
       Called (mouse_move (PageRef 0) 3 4); Called (mouse_move (PageRef 0) 5 6);
       Called (mouse_up (PageRef 0)) ],
     Ok tt).
Proof.
  split; [reflexivity|].
  apply (proj2 drag_gesture quiet_env entered_self (PageRef 0)
           {| point_x := 1; point_y := 2 |}
           [ {| point_x := 3; point_y := 4 |}; {| point_x := 5; point_y := 6 |} ]);
    reflexivity.
Defined.

(** ** Teardown *)

Lemma for_each_call_ok (cs : list Call) (env : Env) (s : Self) :
  (forall c, c ∈ cs -> raises env c = None) ->
  for_each cs call env s = (s, Called <$> cs, Ok tt).
Proof.
  induction cs as [|c cs IH]; intros Hok; [reflexivity|].
  cbn [for_each]. rewrite call_bind_ok by (apply Hok; left).
  rewrite IH; [reflexivity|]. intros c' Hc'. apply Hok. right. exact Hc'.
Qed.

Lemma for_each_call_raise (pre post : list Call) (c : Call) (e : Exn)
    (env : Env) (s : Self) :
  (forall c', c' ∈ pre -> raises env c' = None) ->
  raises env c = Some e ->
  for_each (pre ++ c :: post) call env s = (s, Called <$> (pre ++ [c]), Raise e).
Proof.
  induction pre as [|c0 pre IH]; intros Hok Hc.
  - cbn [app for_each]. apply call_bind_raise. exact Hc.
  - cbn [app for_each]. rewrite call_bind_ok by (apply Hok; left).
    rewrite IH; [reflexivity| |exact Hc].
    intros c' Hc'. apply Hok. right. exact Hc'.
Qed.

Lemma calls_of_called (cs : list Call) : calls_of (Called <$> cs) = cs.
Proof.
  induction cs as [|c cs IH]; [reflexivity|].
  cbn. unfold calls_of in IH. rewrite IH. reflexivity.
Qed.

Lemma calls_of_app (t1 t2 : list Event) :
  calls_of (t1 ++ t2) = calls_of t1 ++ calls_of t2.
Proof. apply omap_app. Qed.

(** The exits are the loop over their steps, followed by the closing log
    line of the remote backends. *)
Lemma base_exit_steps (env : Env) (s : Self) :
  BasePlaywrightComputer.__exit__ env s
  = for_each (teardown_calls false s) call env s.
Proof.
  unfold BasePlaywrightComputer.__exit__, teardown_calls.
  destruct s as [pw b p se d rg px vm ab].
  destruct b, pw; cbn; run_m; cbn; repeat (destruct (raises env _); cbn); reflexivity.
Qed.

Lemma remote_exit_steps (url : string) (env : Env) (s : Self) :
  (s' ← get_self;
   (if _page s' is Some p then call (page_close p) else mret tt) ;;
   (if _browser s' is Some _ then call browser_close else mret tt) ;;
   (if _playwright s' is Some _ then call playwright_stop else mret tt) ;;
   (if session s' is Some sess then print (url +:+ session_id sess) else mret tt))
    env s
  = (for_each (teardown_calls true s) call ;;
     (if session s is Some sess then print (url +:+ session_id sess) else mret tt))
      env s.
Proof.
  unfold teardown_calls.
  destruct s as [pw b p se d rg px vm ab].
  destruct p, b, pw, se; cbn; run_m; cbn; repeat (destruct (raises env _); cbn); reflexivity.
Qed.

Lemma remote_exit_stops (url : string) :
  stops_at_first_failure
    (s' ← get_self;
     (if _page s' is Some p then call (page_close p) else mret tt) ;;
     (if _browser s' is Some _ then call browser_close else mret tt) ;;
     (if _playwright s' is Some _ then call playwright_stop else mret tt) ;;
     (if session s' is Some sess then print (url +:+ session_id sess) else mret tt))
    (teardown_calls true).
Proof.
  intros env s. rewrite remote_exit_steps. split.
  - intros Hok. rewrite bind_run, for_each_call_ok by exact Hok.
    destruct (session s) as [sess|]; run_m.
    + rewrite calls_of_app, calls_of_called. cbn. rewrite app_nil_r. repeat split.
    + rewrite calls_of_app, calls_of_called. cbn. rewrite app_nil_r. repeat split.
  - intros pre c post e Hsteps Hpre Hc.
    rewrite bind_run, Hsteps, (for_each_call_raise pre post c e) by assumption.
    reflexivity.
Qed.

(** C4, as the code has it.  On exit the teardown steps that apply are
    attempted in the order: current page closed (remote backends only),
    browser connection closed, engine stopped.  When none raises, these
    are exactly the calls made.  When one raises, the calls made are the
    steps up to and including that one, and the exception leaves
    [__exit__]: no later step is attempted. *)
Theorem exit_stops_at_first_failure :
  stops_at_first_failure BrowserbaseBrowser.__exit__ (teardown_calls true) /\
  stops_at_first_failure LumiTehBrowser.__exit__ (teardown_calls true) /\
  stops_at_first_failure BasePlaywrightComputer.__exit__ (teardown_calls false).
Proof.
  split; [|split].
  - apply remote_exit_stops.
  - apply remote_exit_stops.
  - intros env s. rewrite base_exit_steps. split.
    + intros Hok. rewrite for_each_call_ok by exact Hok.
      cbn [trace result attrs fst snd]. rewrite calls_of_called. repeat split.
    + intros pre c post e Hsteps Hpre Hc.
      rewrite Hsteps. apply for_each_call_raise; assumption.
Qed.

Lemma exit_stops_at_first_failure_witness :
  teardown_calls true entered_self
    = [page_close (PageRef 0)] ++ browser_close :: [playwright_stop] /\
  (forall c', c' ∈ [page_close (PageRef 0)] ->
     raises (with_raises (only_raises browser_close (PlaywrightError "Connection closed"))
               quiet_env) c' = None) /\
  raises (with_raises (only_raises browser_close (PlaywrightError "Connection closed"))
            quiet_env) browser_close
    = Some (PlaywrightError "Connection closed") /\
  LumiTehBrowser.__exit__
    (with_raises (only_raises browser_close (PlaywrightError "Connection closed"))
       quiet_env) entered_self
  = (entered_self, [Called (page_close (PageRef 0)); Called browser_close],
     Raise (PlaywrightError "Connection closed")).
Proof.
  assert (Hpre : forall c', c' ∈ [page_close (PageRef 0)] ->
     raises (with_raises (only_raises browser_close (PlaywrightError "Connection closed"))
               quiet_env) c' = None).
  { intros c' Hc'. apply list_elem_of_singleton in Hc'. subst c'. reflexivity. }
  split; [reflexivity|]. split; [exact Hpre|]. split; [reflexivity|].
  destruct exit_stops_at_first_failure as (_ & Hl & _).
  apply (proj2 (Hl _ entered_self) [page_close (PageRef 0)] browser_close
           [playwright_stop] (PlaywrightError "Connection closed") eq_refl Hpre eq_refl).
Defined.

(** C4, as worded, fails.  When closing the current page raises, the
    exit of a remote backend ends there: neither the browser connection is
    closed nor the engine stopped. *)
Lemma exit_not_best_effort :
  BrowserbaseBrowser.__exit__
    (with_raises (only_raises (page_close (PageRef 0)) (PlaywrightError "Target closed"))
       quiet_env) entered_self
  = (entered_self, [Called (page_close (PageRef 0))],
     Raise (PlaywrightError "Target closed")) /\
  LumiTehBrowser.__exit__
    (with_raises (only_raises (page_close (PageRef 0)) (PlaywrightError "Target closed"))
       quiet_env) entered_self
  = (entered_self, [Called (page_close (PageRef 0))],
     Raise (PlaywrightError "Target closed")) /\
  ~ (forall (env : Env) (s : Self) (p : Page) (b : Browser) (pw : Playwright),
       _page s = Some p -> _browser s = Some b -> _playwright s = Some pw ->
       exists t1 t2 t3 t4,
         trace (BrowserbaseBrowser.__exit__ env s)
         = t1 ++ Called (page_close p) :: t2 ++ Called browser_close :: t3
              ++ Called playwright_stop :: t4).
Proof.
  assert (Hrun : BrowserbaseBrowser.__exit__
            (with_raises (only_raises (page_close (PageRef 0))
                            (PlaywrightError "Target closed")) quiet_env) entered_self
          = (entered_self, [Called (page_close (PageRef 0))],
             Raise (PlaywrightError "Target closed"))) by reflexivity.
  split; [exact Hrun|]. split; [reflexivity|].
  intros Hclaim.
  destruct (Hclaim
              (with_raises (only_raises (page_close (PageRef 0))
                              (PlaywrightError "Target closed")) quiet_env)
              entered_self (PageRef 0) browser_handle playwright_handle
              eq_refl eq_refl eq_refl) as (t1 & t2 & t3 & t4 & Ht).
  rewrite Hrun in Ht. cbn [trace fst snd] in Ht.
  apply (f_equal length) in Ht.
  repeat first [rewrite length_app in Ht | progress cbn [length] in Ht].
  lia.
Qed.

(** ** Request interception *)

Ltac crunch Hq Hc :=
  repeat (progress (cbn; run_m; rewrite ?Hq, ?Hc)).

(** The route handler aborts a blocklisted request and lets any other
    continue. *)
Lemma handle_route_run (env : Env) (s : Self) (url : string) :
  (forall c, raises env c = None) ->
  BasePlaywrightComputer.handle_route url env s
  = (s,
     if check_blocklisted_url env url
     then [Printed ("Flagging blocked domain: " +:+ url); Called (route_abort url)]
     else [Called (route_continue url)],
     Ok tt).
Proof.
  intros Hq. unfold BasePlaywrightComputer.handle_route. run_m.
  destruct (check_blocklisted_url env url); rewrite Hq; reflexivity.
Qed.

Lemma browserbase_enter_run (env : Env) (s : Self) (p0 : Page) (ps : list Page)
    (cs : list (list Page)) :
  (forall c, raises env c = None) ->
  contexts env = (p0 :: ps) :: cs ->
  BrowserbaseBrowser.__enter__ env s
  = (entered env p0 s,
     [ Called sync_playwright_start;
       Called (sessions_create (dimensions s) (ad_blocker s) (region s) (proxy s));
       Printed ("Watch and control this browser live at https://www.browserbase.com/sessions/"
                +:+ session_id (new_session env));
       Called (connect_over_cdp 60000);
       Called context_on_page ]
     ++ (if virtual_mouse s then [Called context_add_init_script] else [])
     ++ [ Called (page_on_close p0);
          Called (page_goto p0 "https://bing.com");
          Called (page_route p0 "**/*") ],
     Ok tt).
Proof.
  intros Hq Hc.
  unfold BrowserbaseBrowser.__enter__, BasePlaywrightComputer.__enter__,
    BrowserbaseBrowser._get_browser_and_page, entered.
  destruct s as [pw b p se [w h] rg px vm ab]. destruct vm; crunch Hq Hc; reflexivity.
Qed.

Lemma lumiteh_enter_run (env : Env) (s : Self) (p0 : Page) (ps : list Page)
    (cs : list (list Page)) :
  (forall c, raises env c = None) ->
  contexts env = (p0 :: ps) :: cs ->
  LumiTehBrowser.__enter__ env s
  = (entered env p0 s,
     [ Called sync_playwright_start;
       Called sessions_start;
       Called (sessions_debug_info (session_id (new_session env)));
       Called (connect_over_cdp 60000);
       Called context_on_page;
       Called (page_on_close p0);
       Called (page_goto p0 "https://bing.com");
       Called (page_route p0 "**/*") ],
     Ok tt).
Proof.
  intros Hq Hc.
  unfold LumiTehBrowser.__enter__, BasePlaywrightComputer.__enter__,
    LumiTehBrowser._get_browser_and_page, entered.
  destruct s as [pw b p se [w h] rg px vm ab]. crunch Hq Hc; reflexivity.
Qed.

Lemma new_page_run (env : Env) (s : Self) (p1 : Page) (handler : Page -> M unit) :
  handler = BrowserbaseBrowser._handle_new_page \/
  handler = LumiTehBrowser._handle_new_page ->
  raises env (page_on_close p1) = None ->
  handler p1 env s
  = (set_page (Some p1) s, [Printed "New page created"; Called (page_on_close p1)], Ok tt).
Proof.
  intros [-> | ->] Hq.
  - unfold BrowserbaseBrowser._handle_new_page. run_m. rewrite Hq. reflexivity.
  - unfold LumiTehBrowser._handle_new_page. run_m. rewrite Hq. reflexivity.
Qed.

(** C5 at the failing input.  A remote computer enters its [with] block
    on an engine whose first context holds the page [p0]; then a new page
    [p1] is created and becomes the current page.  The route handler is
    installed on [p0] only, so a request for a blocklisted [url] on [p0]
    is aborted, while the same request on the current page [p1] reaches no
    handler: it is neither checked nor aborted. *)
Theorem new_page_requests_unchecked (env : Env) (s : Self) (p0 p1 : Page)
    (ps : list Page) (cs : list (list Page)) (url : string)
    (enter : M unit) (new_page : Page -> M unit) :
  (enter = BrowserbaseBrowser.__enter__ /\
   new_page = BrowserbaseBrowser._handle_new_page) \/
  (enter = LumiTehBrowser.__enter__ /\
   new_page = LumiTehBrowser._handle_new_page) ->
  (forall c, raises env c = None) ->
  contexts env = (p0 :: ps) :: cs ->
  p1 <> p0 ->
  check_blocklisted_url env url = true ->
  let r := (enter ;; new_page p1) env s in
  result r = Ok tt /\
  _page (attrs r) = Some p1 /\
  routed_pages env (trace r) = [p0] /\
  request (routed_pages env (trace r)) p1 url env (attrs r) = (attrs r, [], Ok tt) /\
  request (routed_pages env (trace r)) p0 url env (attrs r)
  = (attrs r,
     [Printed ("Flagging blocked domain: " +:+ url); Called (route_abort url)],
     Ok tt).
Proof.
  intros Hsel Hq Hc Hne Hb r.
  assert (Hr : exists t, r = (set_page (Some p1) (entered env p0 s), t, Ok tt) /\
                         routed_pages env t = [p0]).
  { subst r. rewrite bind_run. destruct Hsel as [[-> ->] | [-> ->]].
    - rewrite (browserbase_enter_run env s p0 ps cs Hq Hc).
      rewrite (new_page_run env _ p1 _ (or_introl eq_refl) (Hq _)).
      eexists. split; [reflexivity|].
      unfold routed_pages. destruct (virtual_mouse s); cbn; rewrite Hq; reflexivity.
    - rewrite (lumiteh_enter_run env s p0 ps cs Hq Hc).
      rewrite (new_page_run env _ p1 _ (or_intror eq_refl) (Hq _)).
      eexists. split; [reflexivity|].
      unfold routed_pages. cbn. rewrite Hq. reflexivity. }
  destruct Hr as (t & -> & Hrouted). cbn [result attrs trace fst snd].
  rewrite Hrouted. unfold request.
  split; [reflexivity|]. split; [reflexivity|]. split; [reflexivity|]. split.
  - rewrite decide_False; [reflexivity|].
    intros Hin. apply list_elem_of_singleton in Hin. contradiction.
  - rewrite decide_True by (apply list_elem_of_singleton; reflexivity).
    rewrite (handle_route_run env _ url Hq), Hb. reflexivity.
Qed.

Lemma new_page_requests_unchecked_witness :
  ((BrowserbaseBrowser.__enter__ = BrowserbaseBrowser.__enter__ /\
    BrowserbaseBrowser._handle_new_page = BrowserbaseBrowser._handle_new_page) \/
   (BrowserbaseBrowser.__enter__ = LumiTehBrowser.__enter__ /\
    BrowserbaseBrowser._handle_new_page = LumiTehBrowser._handle_new_page)) /\
  (forall c, raises quiet_env c = None) /\
  contexts quiet_env = (PageRef 0 :: []) :: [] /\
  PageRef 1 <> PageRef 0 /\
  check_blocklisted_url quiet_env "https://ads.example.com/x.js" = true /\
  _page (attrs ((BrowserbaseBrowser.__enter__ ;;
                 BrowserbaseBrowser._handle_new_page (PageRef 1)) quiet_env
                  (BrowserbaseBrowser.__init__ None None None None None None)))
    = Some (PageRef 1) /\
  trace (request
           (routed_pages quiet_env
              (trace ((BrowserbaseBrowser.__enter__ ;;
                       BrowserbaseBrowser._handle_new_page (PageRef 1)) quiet_env
                        (BrowserbaseBrowser.__init__ None None None None None None))))
           (PageRef 1) "https://ads.example.com/x.js" quiet_env
           (attrs ((BrowserbaseBrowser.__enter__ ;;
                    BrowserbaseBrowser._handle_new_page (PageRef 1)) quiet_env
                     (BrowserbaseBrowser.__init__ None None None None None None))))
    = [].
Proof.
  split; [left; split; reflexivity|].
  split; [reflexivity|]. split; [reflexivity|]. split; [discriminate|].
  split; [reflexivity|].
  pose proof (new_page_requests_unchecked quiet_env
                (BrowserbaseBrowser.__init__ None None None None None None)
                (PageRef 0) (PageRef 1) [] [] "https://ads.example.com/x.js"
                BrowserbaseBrowser.__enter__ BrowserbaseBrowser._handle_new_page
                (or_introl (conj eq_refl eq_refl)) (fun _ => eq_refl) eq_refl
                ltac:(discriminate) eq_refl) as (_ & Hp & _ & Hreq & _).
  split; [exact Hp|]. rewrite Hreq. reflexivity.
Defined.

(** ** Screenshots *)

Lemma try_except_caught (A : Type) (body : M A) (catches : Exn -> bool)
    (handler : Exn -> M A) (env : Env) (s : Self) (e : Exn) :
  result (body env s) = Raise e ->
  catches e = true ->
  try_except body catches handler env s
  = match handler e env (attrs (body env s)) with
    | (s2, t2, r) => (s2, trace (body env s) ++ t2, r)
    end.
Proof.
  intros Hraise Hcatch. unfold try_except.
  destruct (body env s) as [[s1 t1] r1]. cbn [result attrs trace fst snd] in *.
  subst r1. rewrite Hcatch. reflexivity.
Qed.

Lemma try_except_uncaught (A : Type) (body : M A) (catches : Exn -> bool)
    (handler : Exn -> M A) (env : Env) (s : Self) (e : Exn) :
  result (body env s) = Raise e ->
  catches e = false ->
  try_except body catches handler env s = body env s.
Proof.
  intros Hraise Hcatch. unfold try_except.
  destruct (body env s) as [[s1 t1] r1]. cbn [result snd] in *.
  subst r1. rewrite Hcatch. reflexivity.
Qed.

Lemma cdp_capture_same (env : Env) (s : Self) :
  LumiTehBrowser.cdp_capture env s = BrowserbaseBrowser.cdp_capture env s.
Proof. reflexivity. Qed.

(** The capture over CDP writes no attribute. *)
Lemma cdp_capture_attrs (env : Env) (s : Self) :
  attrs (BrowserbaseBrowser.cdp_capture env s) = s.
Proof.
  unfold BrowserbaseBrowser.cdp_capture. run_m.
  destruct (_page s) as [p|]; [|reflexivity].
  destruct (raises env (new_cdp_session p)); [reflexivity|].
  destruct (raises env (cdp_send p "Page.captureScreenshot")); [reflexivity|].
  destruct (capture_reply env p !! "data"); reflexivity.
Qed.

(** What the default screenshot returns when it returns. *)
Lemma base_screenshot_ok (env : Env) (s : Self) (png : string) :
  result (BasePlaywrightComputer.screenshot env s) = Ok png ->
  exists p, _page s = Some p /\ png = b64encode (screenshot_png env p).
Proof.
  unfold BasePlaywrightComputer.screenshot. run_m.
  destruct (_page s) as [p|]; [|discriminate].
  destruct (raises env (page_screenshot p false)); [discriminate|].
  intros Heq. injection Heq as <-. exists p. split; reflexivity.
Qed.

(** C8, as the code has it.  When the capture over CDP of a remote
    backend raises a [PlaywrightError] and the default viewport screenshot
    returns, [screenshot] logs the failure and returns what the default
    method returns, the base64 text of the PNG of the current page: the
    error is not passed on. *)
Theorem screenshot_falls_back (env : Env) (s : Self) (e : Exn) (png : string)
    (capture screenshot : M string) :
  (capture = BrowserbaseBrowser.cdp_capture /\
   screenshot = BrowserbaseBrowser.screenshot) \/
  (capture = LumiTehBrowser.cdp_capture /\
   screenshot = LumiTehBrowser.screenshot) ->
  result (capture env s) = Raise e ->
  is_PlaywrightError e = true ->
  result (BasePlaywrightComputer.screenshot env s) = Ok png ->
  result (screenshot env s) = Ok png /\
  (exists p, _page s = Some p /\ png = b64encode (screenshot_png env p)) /\
  (exists line,
     trace (screenshot env s)
     = trace (capture env s) ++ Printed line
         :: trace (BasePlaywrightComputer.screenshot env s)).
Proof.
  intros Hsel Hcap Hpw Hdef.
  assert (Hrun : exists line,
            screenshot env s
            = match BasePlaywrightComputer.screenshot env s with
              | (s2, t2, r) => (s2, trace (capture env s) ++ Printed line :: t2, r)
              end).
  { pose proof (cdp_capture_attrs env s) as Hs.
    destruct Hsel as [[-> ->] | [-> ->]].
    - eexists. unfold BrowserbaseBrowser.screenshot.
      rewrite (try_except_caught _ _ _ _ env s e Hcap Hpw), Hs.
      rewrite bind_run. cbn [print].
      destruct (BasePlaywrightComputer.screenshot env s) as [[s2 t2] r2].
      reflexivity.
    - eexists. unfold LumiTehBrowser.screenshot.
      rewrite (try_except_caught _ _ _ _ env s e Hcap Hpw).
      rewrite cdp_capture_same, Hs.
      rewrite bind_run. cbn [print].
      destruct (BasePlaywrightComputer.screenshot env s) as [[s2 t2] r2].
      reflexivity. }
  destruct Hrun as (line & Hrun). rewrite Hrun.
  destruct (BasePlaywrightComputer.screenshot env s) as [[s2 t2] r2] eqn:Hbase.
  cbn [result trace fst snd] in *.
  split; [exact Hdef|]. split.
  - apply (base_screenshot_ok env s). rewrite Hbase. exact Hdef.
  - exists line. reflexivity.
Qed.

Lemma screenshot_falls_back_witness :
  ((BrowserbaseBrowser.cdp_capture = BrowserbaseBrowser.cdp_capture /\
    BrowserbaseBrowser.screenshot = BrowserbaseBrowser.screenshot) \/
   (BrowserbaseBrowser.cdp_capture = LumiTehBrowser.cdp_capture /\
    BrowserbaseBrowser.screenshot = LumiTehBrowser.screenshot)) /\
  result (BrowserbaseBrowser.cdp_capture
            (with_raises (only_raises (new_cdp_session (PageRef 0))
                            (PlaywrightError "Protocol error")) quiet_env)
            entered_self)
    = Raise (PlaywrightError "Protocol error") /\
  is_PlaywrightError (PlaywrightError "Protocol error") = true /\
  result (BasePlaywrightComputer.screenshot
            (with_raises (only_raises (new_cdp_session (PageRef 0))
                            (PlaywrightError "Protocol error")) quiet_env)
            entered_self)
    = Ok "iVBORw==" /\
  result (BrowserbaseBrowser.screenshot
            (with_raises (only_raises (new_cdp_session (PageRef 0))
                            (PlaywrightError "Protocol error")) quiet_env)
            entered_self)
    = Ok "iVBORw==".
Proof.
  split; [left; split; reflexivity|].
  split; [reflexivity|]. split; [reflexivity|]. split; [reflexivity|].
  apply (screenshot_falls_back
           (with_raises (only_raises (new_cdp_session (PageRef 0))
                           (PlaywrightError "Protocol error")) quiet_env)
           entered_self (PlaywrightError "Protocol error") "iVBORw=="
           BrowserbaseBrowser.cdp_capture BrowserbaseBrowser.screenshot
           (or_introl (conj eq_refl eq_refl)) eq_refl eq_refl eq_refl).
Defined.

(** Any other failure of the capture leaves [screenshot] as it left the
    capture. *)
Lemma screenshot_passes_on (env : Env) (s : Self) (e : Exn) :
  result (BrowserbaseBrowser.cdp_capture env s) = Raise e ->
  is_PlaywrightError e = false ->
  BrowserbaseBrowser.screenshot env s = BrowserbaseBrowser.cdp_capture env s /\
  LumiTehBrowser.screenshot env s = LumiTehBrowser.cdp_capture env s.
Proof.
  intros Hcap Hpw. split.
  - apply (try_except_uncaught _ _ _ _ env s e Hcap Hpw).
  - apply (try_except_uncaught _ _ _ _ env s e); [|exact Hpw].
    rewrite cdp_capture_same. exact Hcap.
Qed.

(** C8, as worded, fails.  A failure of the capture that is not a
    [PlaywrightError] reaches the caller although the default screenshot
    would return: so when the CDP call raises another exception, and so
    when the CDP reply has no ["data"] entry. *)
Lemma screenshot_other_failure_surfaces :
  BrowserbaseBrowser.screenshot
    (with_raises (only_raises (cdp_send (PageRef 0) "Page.captureScreenshot")
                    (OtherException "interrupted")) quiet_env)
    entered_self
  = (entered_self,
     [ Called (new_cdp_session (PageRef 0));
       Called (cdp_send (PageRef 0) "Page.captureScreenshot") ],
     Raise (OtherException "interrupted")) /\
  result (BasePlaywrightComputer.screenshot
            (with_raises (only_raises (cdp_send (PageRef 0) "Page.captureScreenshot")
                            (OtherException "interrupted")) quiet_env)
            entered_self)
    = Ok "iVBORw==" /\
  LumiTehBrowser.screenshot (with_capture_reply (fun _ => ∅) quiet_env) entered_self
  = (entered_self,
     [ Called (new_cdp_session (PageRef 0));
       Called (cdp_send (PageRef 0) "Page.captureScreenshot") ],
     Raise (KeyError "data")) /\
  result (BasePlaywrightComputer.screenshot
            (with_capture_reply (fun _ => ∅) quiet_env) entered_self)
    = Ok "iVBORw==" /\
  ~ (forall (env : Env) (s : Self) (e : Exn) (png : string),
       result (BrowserbaseBrowser.cdp_capture env s) = Raise e ->
       result (BasePlaywrightComputer.screenshot env s) = Ok png ->
       result (BrowserbaseBrowser.screenshot env s) = Ok png).
Proof.
  split; [reflexivity|]. split; [reflexivity|].
  split; [reflexivity|]. split; [reflexivity|].
  intros Hclaim.
  specialize (Hclaim
    (with_raises (only_raises (cdp_send (PageRef 0) "Page.captureScreenshot")
                    (OtherException "interrupted")) quiet_env)
    entered_self (OtherException "interrupted") "iVBORw==" eq_refl eq_refl).
  discriminate Hclaim.
Qed.

(** ** Dimensions *)

(** C9 at the failing input.  A Browserbase computer reports the viewport
    it was configured with.  A LumiTeh computer stores its viewport in
    [dimensions] but has no [get_dimensions] of its own: whatever width
    and height it is given, and also with the defaults 1024 and 768, it
    reports the 1280 by 1080 of the base class. *)
Theorem lumiteh_get_dimensions_ignores_viewport :
  (forall width height region proxy virtual_mouse ad_blocker,
     BrowserbaseBrowser.get_dimensions
       (BrowserbaseBrowser.__init__ width height region proxy virtual_mouse ad_blocker)
     = (default 1024 width, default 768 height)) /\
  (forall width height proxy,
     dimensions (LumiTehBrowser.__init__ width height proxy)
     = (default 1024 width, default 768 height) /\
     LumiTehBrowser.get_dimensions (LumiTehBrowser.__init__ width height proxy)
     = (1280, 1080)) /\
  LumiTehBrowser.get_dimensions (LumiTehBrowser.__init__ (Some 800) (Some 600) None)
  = (1280, 1080) /\
  LumiTehBrowser.get_dimensions (LumiTehBrowser.__init__ None None None)
  <> (1024, 768).
Proof.
  split; [reflexivity|]. split; [intros; split; reflexivity|].
  split; [reflexivity|]. discriminate.
Qed.

(** * Further properties of the code *)

(** ** Navigation *)


(** ** Buttons of a click *)

(** [click] makes at most one call on the engine.  A pointer click it
    issues is on the current page at the given position, with the right
    button exactly when [button] is ["right"] and with the left button
    otherwise; no other button name reaches the engine. *)
Theorem click_buttons (env : Env) (s : Self) (x y : Z) (button : string) :
  (length (trace (BasePlaywrightComputer.click x y button env s)) <= 1)%nat /\
  (forall p' x' y' b,
     Called (mouse_click p' x' y' b)
       ∈ trace (BasePlaywrightComputer.click x y button env s) ->
     _page s = Some p' /\ x' = x /\ y' = y /\
     ((button = "right" /\ b = "right") \/ (button <> "right" /\ b = "left"))) /\
  (forall p, _page s = Some p -> button = "right" ->
     trace (BasePlaywrightComputer.click x y button env s)
     = [Called (mouse_click p x y "right")]).
Proof.
  assert (Hbutton : forall b : string,
            b = default "left"
                  ((list_to_map [("left", "left"); ("right", "right")]
                     : gmap string string) !! button) ->
            (button = "right" /\ b = "right") \/ (button <> "right" /\ b = "left")).
  { intros b ->. cbn.
    destruct (decide (button = "left")) as [->|Hl]; [right; split; [discriminate|reflexivity]|].
    rewrite lookup_insert_ne by congruence.
    destruct (decide (button = "right")) as [->|Hr]; [left; split; reflexivity|].
    rewrite lookup_insert_ne by congruence. rewrite lookup_empty.
    right. split; [exact Hr | reflexivity]. }
  unfold BasePlaywrightComputer.click, BasePlaywrightComputer.back,
    BasePlaywrightComputer.forward.
  destruct (_page s) as [p|] eqn:Hp.
  - repeat case_decide; subst;
      rewrite ?(page_call_run "go_back" page_go_back env s p Hp),
        ?(page_call_run "go_forward" page_go_forward env s p Hp),
        ?(page_call_run "mouse" (fun q => mouse_wheel q x y) env s p Hp),
        ?(page_call_run "mouse"
            (fun q => mouse_click q x y
               (default "left"
                  ((list_to_map [("left", "left"); ("right", "right")]
                     : gmap string string) !! button))) env s p Hp);
      cbn [trace fst snd length].
    all: split; [lia|]; split.
    all: try (intros p' x' y' b Hin; apply list_elem_of_singleton in Hin;
              try discriminate Hin).
    all: try (intros q Hq Hb; discriminate Hb).
    + injection Hin as <- <- <- Hb. repeat split; try reflexivity.
      apply Hbutton. exact Hb.
    + intros q Hq ->. injection Hq as <-. reflexivity.
  - repeat case_decide; run_m; rewrite Hp; cbn.
    all: split; [lia|]; split.
    all: try (intros p' x' y' b Hin; inversion Hin).
    all: intros q Hq; discriminate Hq.
Qed.

(** ** Without a current page *)

Section WithoutPage.

Variable mouse_dblclick : Page -> Z -> Z -> M unit.
Variable keyboard_type : Page -> string -> M unit.
Variable page_evaluate :
  Page -> string -> option ParsingConfig -> M (option DomTreeDict).
Variable page_url : Page -> string.

(** While there is no current page, every pointer, keyboard, navigation
    and observation primitive that has something to do raises
    [AttributeError] at once: nothing is called on the engine, nothing is
    printed and no attribute changes.  This holds for the screenshots of
    the remote backends too, whose fallback is not tried.  Only the empty
    gestures get through: a chord of no keys and a drag along no points
    return at once. *)
Theorem primitives_need_a_page (env : Env) (s : Self) :
  _page s = None ->
  (forall x y button, stops_on_attribute s (BasePlaywrightComputer.click x y button env s)) /\
  (forall x y, stops_on_attribute s (BasePlaywrightComputer.move x y env s)) /\
  (forall x y,
     stops_on_attribute s (BasePlaywrightComputer.double_click mouse_dblclick x y env s)) /\
  (forall x y dx dy,
     stops_on_attribute s (BasePlaywrightComputer.scroll page_evaluate x y dx dy env s)) /\
  (forall text, stops_on_attribute s (BasePlaywrightComputer.type keyboard_type text env s)) /\
  (forall key keys,
     stops_on_attribute s (BasePlaywrightComputer.keypress (key :: keys) env s)) /\
  (forall point path,
     stops_on_attribute s (BasePlaywrightComputer.drag (point :: path) env s)) /\
  stops_on_attribute s (BasePlaywrightComputer.back env s) /\
  stops_on_attribute s (BasePlaywrightComputer.forward env s) /\
  stops_on_attribute s (BasePlaywrightComputer.get_current_url page_url env s) /\
  stops_on_attribute s (BasePlaywrightComputer.screenshot env s) /\
  stops_on_attribute s (BrowserbaseBrowser.screenshot env s) /\
  stops_on_attribute s (LumiTehBrowser.screenshot env s) /\
  (forall verb,
     stops_on_attribute s (BasePlaywrightComputer.execute_action (BrowserAction verb) env s)) /\
  BasePlaywrightComputer.keypress [] env s = (s, [], Ok tt) /\
  BasePlaywrightComputer.drag [] env s = (s, [], Ok tt).
Proof.
  intros Hp. unfold stops_on_attribute.
  repeat split; intros.
  - unfold BasePlaywrightComputer.click, BasePlaywrightComputer.back,
      BasePlaywrightComputer.forward.
    repeat case_decide; run_m; rewrite Hp; eexists; reflexivity.
  - unfold BasePlaywrightComputer.move. run_m. rewrite Hp. eexists. reflexivity.
  - unfold BasePlaywrightComputer.double_click. run_m. rewrite Hp. eexists. reflexivity.
  - unfold BasePlaywrightComputer.scroll. run_m. rewrite Hp. eexists. reflexivity.
  - unfold BasePlaywrightComputer.type. run_m. rewrite Hp. eexists. reflexivity.
  - unfold BasePlaywrightComputer.keypress. cbn [fmap list_fmap for_each].
    run_m. rewrite Hp. eexists. reflexivity.
  - unfold BasePlaywrightComputer.drag. run_m. rewrite Hp. eexists. reflexivity.
  - unfold BasePlaywrightComputer.back. run_m. rewrite Hp. eexists. reflexivity.
  - unfold BasePlaywrightComputer.forward. run_m. rewrite Hp. eexists. reflexivity.
  - unfold BasePlaywrightComputer.get_current_url. run_m. rewrite Hp. eexists. reflexivity.
  - unfold BasePlaywrightComputer.screenshot. run_m. rewrite Hp. eexists. reflexivity.
  - unfold BrowserbaseBrowser.screenshot, try_except, BrowserbaseBrowser.cdp_capture.
    run_m. rewrite Hp. eexists. reflexivity.
  - unfold LumiTehBrowser.screenshot, try_except, LumiTehBrowser.cdp_capture.
    run_m. rewrite Hp. eexists. reflexivity.
  - unfold BasePlaywrightComputer.execute_action.
    run_m. rewrite Hp. eexists. reflexivity.
Qed.

End WithoutPage.

Lemma primitives_need_a_page_witness :
  _page fresh_self = None /\
  BasePlaywrightComputer.click 3 4 "left" quiet_env fresh_self
  = (fresh_self, [], Raise (AttributeError "mouse")) /\
  BrowserbaseBrowser.screenshot quiet_env fresh_self
  = (fresh_self, [], Raise (AttributeError "context")).
Proof.
  split; [reflexivity|].
  pose proof (primitives_need_a_page (fun _ _ _ => mret tt) (fun _ _ => mret tt)
                (fun _ _ _ => mret None) (fun _ => "about:blank")
                quiet_env fresh_self eq_refl) as H.
  destruct H as (Hclick & _ & _ & _ & _ & _ & _ & _ & _ & _ & _ & Hshot & _).
  split.
  - destruct (Hclick 3 4 "left") as (attr & Hrun). rewrite Hrun.
    vm_compute in Hrun. injection Hrun as <-. reflexivity.
  - destruct Hshot as (attr & Hrun). rewrite Hrun.
    vm_compute in Hrun. injection Hrun as <-. reflexivity.
Defined.

(** ** Dispatch of actions *)


Ltac in_trace H :=
  repeat (apply elem_of_cons in H as [H|H]);
  try (apply elem_of_nil in H; contradiction);
  try discriminate H.


(** An action that is neither a browser action nor an interaction action
    is refused with a [ValueError] that names its class; a browser action
    whose execution raises passes the exception on without settle delay. *)
Theorem execute_action_errors (env : Env) (s : Self) :
  (forall name,
     BasePlaywrightComputer.execute_action (OtherAction name) env s
     = (s, [], Raise (ValueError ("Invalid action type: " +:+ name)))) /\
  (forall verb p e,
     _page s = Some p ->
     raises env (action_execute (BrowserAction verb) p None) = Some e ->
     BasePlaywrightComputer.execute_action (BrowserAction verb) env s
     = (s, [Called (action_execute (BrowserAction verb) p None)], Raise e)).
Proof.
  split.
  - intros name. reflexivity.
  - intros verb p e Hp Hx. unfold BasePlaywrightComputer.execute_action.
    run_m. rewrite Hp, Hx. reflexivity.
Qed.

Lemma execute_action_errors_witness :
  _page entered_self = Some (PageRef 0) /\
  raises (with_raises (only_raises (action_execute (BrowserAction "goto") (PageRef 0) None)
                         (PlaywrightError "net::ERR_ABORTED")) quiet_env)
    (action_execute (BrowserAction "goto") (PageRef 0) None)
    = Some (PlaywrightError "net::ERR_ABORTED") /\
  BasePlaywrightComputer.execute_action (BrowserAction "goto")
    (with_raises (only_raises (action_execute (BrowserAction "goto") (PageRef 0) None)
                    (PlaywrightError "net::ERR_ABORTED")) quiet_env)
    entered_self
  = (entered_self, [Called (action_execute (BrowserAction "goto") (PageRef 0) None)],
     Raise (PlaywrightError "net::ERR_ABORTED")).
Proof.
  split; [reflexivity|]. split; [reflexivity|].
  apply (proj2 (execute_action_errors
                  (with_raises
                     (only_raises (action_execute (BrowserAction "goto") (PageRef 0) None)
                        (PlaywrightError "net::ERR_ABORTED")) quiet_env)
                  entered_self)
           "goto" (PageRef 0) (PlaywrightError "net::ERR_ABORTED") eq_refl eq_refl).
Defined.

(** ** The key table *)

Lemma table_keys_lower_case :
  map_Forall (fun k _ => lower k = k) CUA_KEY_TO_PLAYWRIGHT_KEY.
Proof. apply (bool_decide_unpack _). vm_compute. reflexivity. Qed.

Lemma table_values_fixed :
  map_Forall (fun _ v => mapped_key v = v) CUA_KEY_TO_PLAYWRIGHT_KEY.
Proof. apply (bool_decide_unpack _). vm_compute. reflexivity. Qed.

(** Every entry of the key table can be reached, in any capitalisation:
    a name that equals a key of the table up to the case of its letters
    is mapped to the value of that key. *)
Theorem key_table_reachable (k v name : string) :
  CUA_KEY_TO_PLAYWRIGHT_KEY !! k = Some v ->
  lower name = lower k ->
  mapped_key name = v.
Proof.
  intros Hk Hname. unfold mapped_key.
  rewrite Hname, (table_keys_lower_case k v Hk), Hk. reflexivity.
Qed.

Lemma key_table_reachable_witness :
  CUA_KEY_TO_PLAYWRIGHT_KEY !! "pagedown" = Some "PageDown" /\
  lower "PageDown" = lower "pagedown" /\
  mapped_key "PageDown" = "PageDown".
Proof.
  split; [reflexivity|]. split; [reflexivity|].
  apply (key_table_reachable "pagedown" "PageDown" "PageDown"); reflexivity.
Defined.

(** Mapping a key name twice is mapping it once: the names the table
    produces, and the names it does not know, are left as they are. *)
Theorem mapped_key_idempotent (key : string) :
  mapped_key (mapped_key key) = mapped_key key.
Proof.
  unfold mapped_key at 2 3.
  destruct (CUA_KEY_TO_PLAYWRIGHT_KEY !! lower key) as [v|] eqn:Hk; cbn.
  - exact (table_values_fixed (lower key) v Hk).
  - unfold mapped_key. rewrite Hk. reflexivity.
Qed.

(** ** Gestures that fail half way *)

(** A loop of calls on the current page stops at the first call that
    raises. *)
Lemma for_each_calls_raise (A : Type) (f : Page -> A -> Call) (attr : string)
    (pre post : list A) (a : A) (e : Exn) (env : Env) (s : Self) (p : Page) :
  _page s = Some p ->
  (forall b, b ∈ pre -> raises env (f p b) = None) ->
  raises env (f p a) = Some e ->
  for_each (pre ++ a :: post) (fun b => q ← page_attr attr; call (f q b)) env s
  = (s, Called <$> (f p <$> pre ++ [a]), Raise e).
Proof.
  intros Hp. induction pre as [|b pre IH]; intros Hok Ha.
  - cbn [app for_each]. rewrite bind_run.
    rewrite (page_call_run attr (fun q => f q a) env s p Hp), Ha. reflexivity.
  - cbn [app for_each]. rewrite bind_run.
    rewrite (page_call_run attr (fun q => f q b) env s p Hp).
    rewrite (Hok b) by left. rewrite IH; [reflexivity| |exact Ha].
    intros c Hc. apply Hok. right. exact Hc.
Qed.

(** [keypress] stops at the first keyboard call that raises and passes
    the exception on.  When pressing [key] raises, the keys listed before
    it have been pressed and no key at all is released.  When all keys are
    pressed and releasing [key] raises, the keys listed after it have been
    released and the keys listed before it stay pressed. *)
Theorem keypress_stops_at_failure (env : Env) (s : Self) (p : Page)
    (pre post : list string) (key : string) (e : Exn) :
  _page s = Some p ->
  (raises env (keyboard_down p (mapped_key key)) = Some e ->
   (forall k, k ∈ pre -> raises env (keyboard_down p (mapped_key k)) = None) ->
   BasePlaywrightComputer.keypress (pre ++ key :: post) env s
   = (s, Called <$> (keyboard_down p <$> (mapped_key <$> pre ++ [key])), Raise e)) /\
  ((forall k, k ∈ pre ++ key :: post ->
      raises env (keyboard_down p (mapped_key k)) = None) ->
   (forall k, k ∈ post -> raises env (keyboard_up p (mapped_key k)) = None) ->
   raises env (keyboard_up p (mapped_key key)) = Some e ->
   BasePlaywrightComputer.keypress (pre ++ key :: post) env s
   = (s,
      (Called <$> (keyboard_down p <$> (mapped_key <$> pre ++ key :: post)))
        ++ (Called <$> (keyboard_up p <$> (mapped_key <$> reverse post ++ [key]))),
      Raise e)).
Proof.
  intros Hp. split.
  - intros Hkey Hpre. unfold BasePlaywrightComputer.keypress. cbv zeta.
    fold mapped_key. rewrite bind_run, fmap_app, fmap_cons.
    rewrite (for_each_calls_raise string keyboard_down "keyboard"
               (mapped_key <$> pre) (mapped_key <$> post) (mapped_key key) e env s p Hp).
    + rewrite !fmap_app. reflexivity.
    + intros b Hb. apply list_elem_of_fmap in Hb as (k & -> & Hk). apply Hpre, Hk.
    + exact Hkey.
  - intros Hdown Hpost Hkey. unfold BasePlaywrightComputer.keypress. cbv zeta.
    fold mapped_key. rewrite bind_run.
    rewrite (for_each_calls string keyboard_down "keyboard" _ env s p Hp).
    2:{ intros b Hb. apply list_elem_of_fmap in Hb as (k & -> & Hk). apply Hdown, Hk. }
    rewrite fmap_app, fmap_cons, reverse_app, reverse_cons, <- app_assoc.
    cbn [app].
    rewrite (for_each_calls_raise string keyboard_up "keyboard"
               (reverse (mapped_key <$> post)) (reverse (mapped_key <$> pre))
               (mapped_key key) e env s p Hp).
    + rewrite <- fmap_reverse, !fmap_app, fmap_cons. reflexivity.
    + intros b Hb. apply elem_of_reverse, list_elem_of_fmap in Hb as (k & -> & Hk).
      apply Hpost, Hk.
    + exact Hkey.
Qed.

Lemma keypress_stops_at_failure_witness :
  _page entered_self = Some (PageRef 0) /\
  raises (with_raises (only_raises (keyboard_down (PageRef 0) "foo")
                         (PlaywrightError "Unknown key: foo")) quiet_env)
    (keyboard_down (PageRef 0) (mapped_key "foo"))
    = Some (PlaywrightError "Unknown key: foo") /\
  BasePlaywrightComputer.keypress (["ctrl"] ++ "foo" :: ["x"])
    (with_raises (only_raises (keyboard_down (PageRef 0) "foo")
                    (PlaywrightError "Unknown key: foo")) quiet_env)
    entered_self
  = (entered_self,
     [Called (keyboard_down (PageRef 0) "Control");
      Called (keyboard_down (PageRef 0) "foo")],
     Raise (PlaywrightError "Unknown key: foo")).
Proof.
  split; [reflexivity|]. split; [reflexivity|].
  apply (proj1 (keypress_stops_at_failure
                  (with_raises (only_raises (keyboard_down (PageRef 0) "foo")
                                  (PlaywrightError "Unknown key: foo")) quiet_env)
                  entered_self (PageRef 0) ["ctrl"] ["x"] "foo"
                  (PlaywrightError "Unknown key: foo") eq_refl) eq_refl).
  intros k Hk. apply list_elem_of_singleton in Hk. subst k. reflexivity.
Defined.

(** A name spelled with the Kelvin sign for its k is looked up as
    [backspace]: on an engine that rejects the name as it was given,
    [keypress] presses and releases [Backspace] and returns. *)
Example keypress_kelvin_sign_pressed :
  BasePlaywrightComputer.keypress ["bac" +:+ kelvin_sign +:+ "space"]
    (with_raises
       (only_raises (keyboard_down (PageRef 0) ("bac" +:+ kelvin_sign +:+ "space"))
          (PlaywrightError "Unknown key")) quiet_env)
    entered_self
  = (entered_self,
     [Called (keyboard_down (PageRef 0) "Backspace");
      Called (keyboard_up (PageRef 0) "Backspace")],
     Ok tt).
Proof. vm_compute. reflexivity. Qed.

(** [drag] stops at the first move that raises and passes the exception
    on: when the move to a point of the path raises after the button went
    down, the moves before it have been made and the button is not
    released. *)
Theorem drag_stops_at_failure (env : Env) (s : Self) (p : Page)
    (first point : Point) (pre post : list Point) (e : Exn) :
  _page s = Some p ->
  raises env (mouse_move p (point_x first) (point_y first)) = None ->
  raises env (mouse_down p) = None ->
  (forall q, q ∈ pre -> raises env (mouse_move p (point_x q) (point_y q)) = None) ->
  raises env (mouse_move p (point_x point) (point_y point)) = Some e ->
  BasePlaywrightComputer.drag (first :: pre ++ point :: post) env s
  = (s,
     Called <$>
       ([mouse_move p (point_x first) (point_y first); mouse_down p]
        ++ ((fun q => mouse_move p (point_x q) (point_y q)) <$> pre ++ [point])),
     Raise e) /\
  Called (mouse_up p)
    ∉ trace (BasePlaywrightComputer.drag (first :: pre ++ point :: post) env s).
Proof.
  intros Hp Hfirst Hdown Hpre Hpoint.
  assert (Hrun : BasePlaywrightComputer.drag (first :: pre ++ point :: post) env s
    = (s,
       Called <$>
         ([mouse_move p (point_x first) (point_y first); mouse_down p]
          ++ ((fun q => mouse_move p (point_x q) (point_y q)) <$> pre ++ [point])),
       Raise e)).
  { unfold BasePlaywrightComputer.drag.
    rewrite (page_attr_bind _ "mouse" _ env s p Hp), call_bind_ok by exact Hfirst.
    rewrite (page_attr_bind _ "mouse" _ env s p Hp), call_bind_ok by exact Hdown.
    rewrite bind_run.
    rewrite (for_each_calls_raise Point
               (fun q pt => mouse_move q (point_x pt) (point_y pt))
               "mouse" pre post point e env s p Hp Hpre Hpoint).
    rewrite fmap_app. reflexivity. }
  split; [exact Hrun|]. rewrite Hrun. cbn [trace fst snd].
  intros Hin. apply list_elem_of_fmap in Hin as (c & Hc & Hin).
  injection Hc as <-.
  apply elem_of_app in Hin as [Hin|Hin].
  - in_trace Hin.
  - apply list_elem_of_fmap in Hin as (q & Hq & _). discriminate Hq.
Qed.

Lemma drag_stops_at_failure_witness :
  _page entered_self = Some (PageRef 0) /\
  raises (with_raises (only_raises (mouse_move (PageRef 0) 5 6)
                         (PlaywrightError "Target closed")) quiet_env)
    (mouse_move (PageRef 0) 5 6) = Some (PlaywrightError "Target closed") /\
  BasePlaywrightComputer.drag
    ({| point_x := 1; point_y := 2 |}
       :: [ {| point_x := 3; point_y := 4 |} ]
       ++ {| point_x := 5; point_y := 6 |} :: [ {| point_x := 7; point_y := 8 |} ])
    (with_raises (only_raises (mouse_move (PageRef 0) 5 6)
                    (PlaywrightError "Target closed")) quiet_env)
    entered_self
  = (entered_self,
     [ Called (mouse_move (PageRef 0) 1 2); Called (mouse_down (PageRef 0));
       Called (mouse_move (PageRef 0) 3 4); Called (mouse_move (PageRef 0) 5 6) ],
     Raise (PlaywrightError "Target closed")).
Proof.
  split; [reflexivity|]. split; [reflexivity|].
  apply (drag_stops_at_failure
           (with_raises (only_raises (mouse_move (PageRef 0) 5 6)
                           (PlaywrightError "Target closed")) quiet_env)
           entered_self (PageRef 0)
           {| point_x := 1; point_y := 2 |} {| point_x := 5; point_y := 6 |}
           [ {| point_x := 3; point_y := 4 |} ] [ {| point_x := 7; point_y := 8 |} ]
           (PlaywrightError "Target closed") eq_refl eq_refl eq_refl).
  - intros q Hq. apply list_elem_of_singleton in Hq. subst q. reflexivity.
  - reflexivity.
Defined.

(** ** Entering and leaving *)

(** Case analysis on what the engine answers, call by call. *)
Ltac engine_cases env :=
  repeat (cbn; run_m;
          first
            [ match goal with
              | |- context [raises env ?c] => destruct (raises env c) eqn:?
              end
            | match goal with
              | |- context [contexts env] =>
                  destruct (contexts env) as [|[|? ?] ?] eqn:?
              end ]);
  cbn.

(** Connecting to a browser that has no context, or whose first context
    has no page, makes [__enter__] of either remote backend raise
    [IndexError].  The remote session has been created by then and stays
    in [session], the engine stays in [_playwright]; no browser and no
    page is stored, no page is navigated and no route is installed. *)
Theorem enter_without_page (env : Env) (s : Self) (enter : M unit) :
  enter = BrowserbaseBrowser.__enter__ \/ enter = LumiTehBrowser.__enter__ ->
  (forall c, raises env c = None) ->
  contexts env = [] \/ (exists cs, contexts env = [] :: cs) ->
  result (enter env s) = Raise IndexError /\
  attrs (enter env s)
  = set_session (Some (new_session env))
      (set_playwright (Some playwright_handle) s) /\
  (forall p pattern, Called (page_route p pattern) ∉ trace (enter env s)) /\
  (forall p url, Called (page_goto p url) ∉ trace (enter env s)).
Proof.
  intros Hsel Hq Hc.
  destruct s as [pw b p se [w h] rg px vm ab].
  destruct Hsel as [-> | ->].
  - unfold BrowserbaseBrowser.__enter__, BasePlaywrightComputer.__enter__,
      BrowserbaseBrowser._get_browser_and_page.
    destruct Hc as [Hc | (cs & Hc)]; destruct vm; crunch Hq Hc.
    all: split; [reflexivity|]; split; [reflexivity|].
    all: split; intros; intros Hin; in_trace Hin.
  - unfold LumiTehBrowser.__enter__, BasePlaywrightComputer.__enter__,
      LumiTehBrowser._get_browser_and_page.
    destruct Hc as [Hc | (cs & Hc)]; crunch Hq Hc.
    all: split; [reflexivity|]; split; [reflexivity|].
    all: split; intros; intros Hin; in_trace Hin.
Qed.

Lemma enter_without_page_witness :
  (LumiTehBrowser.__enter__ = BrowserbaseBrowser.__enter__ \/
   LumiTehBrowser.__enter__ = LumiTehBrowser.__enter__) /\
  (forall c, raises (with_contexts [[]] quiet_env) c = None) /\
  (contexts (with_contexts [[]] quiet_env) = [] \/
   exists cs, contexts (with_contexts [[]] quiet_env) = [] :: cs) /\
  result (LumiTehBrowser.__enter__ (with_contexts [[]] quiet_env)
            (LumiTehBrowser.__init__ None None None))
    = Raise IndexError.
Proof.
  split; [right; reflexivity|]. split; [reflexivity|].
  split; [right; exists []; reflexivity|].
  apply (enter_without_page (with_contexts [[]] quiet_env)
           (LumiTehBrowser.__init__ None None None) LumiTehBrowser.__enter__
           (or_intror eq_refl) (fun _ => eq_refl)
           (or_intror (ex_intro _ [] eq_refl))).
Defined.

(** The viewport Browserbase is asked for is the one [get_dimensions]
    reports: once the engine has started, the first call of [__enter__]
    creates the session with the stored dimensions, ad blocker flag,
    region and proxy; for a computer built with [__init__] these are the
    constructor's arguments, 1024 by 768 in region us-west-2 without proxy
    and ad blocker by default. *)
Theorem browserbase_session_request (env : Env) :
  raises env sync_playwright_start = None ->
  (forall s, exists t,
     trace (BrowserbaseBrowser.__enter__ env s)
     = Called sync_playwright_start
       :: Called (sessions_create (BrowserbaseBrowser.get_dimensions s) (ad_blocker s)
                    (region s) (proxy s))
       :: t) /\
  (forall width height region proxy virtual_mouse ad_blocker, exists t,
     trace (BrowserbaseBrowser.__enter__ env
              (BrowserbaseBrowser.__init__ width height region proxy virtual_mouse
                 ad_blocker))
     = Called sync_playwright_start
       :: Called (sessions_create (default 1024 width, default 768 height)
                    (default false ad_blocker) (default "us-west-2" region)
                    (default false proxy))
       :: t).
Proof.
  intros Hstart.
  assert (Hall : forall s, exists t,
     trace (BrowserbaseBrowser.__enter__ env s)
     = Called sync_playwright_start
       :: Called (sessions_create (BrowserbaseBrowser.get_dimensions s) (ad_blocker s)
                    (region s) (proxy s))
       :: t).
  { intros s. unfold BrowserbaseBrowser.__enter__, BasePlaywrightComputer.__enter__,
      BrowserbaseBrowser._get_browser_and_page, BrowserbaseBrowser.get_dimensions.
    destruct s as [pw b p se [w h] rg px vm ab]. cbn. run_m. rewrite Hstart.
    destruct vm; engine_cases env; eexists; reflexivity. }
  split; [exact Hall|].
  intros width height region proxy virtual_mouse ad_blocker.
  apply (Hall (BrowserbaseBrowser.__init__ width height region proxy virtual_mouse
                 ad_blocker)).
Qed.

Lemma browserbase_session_request_witness :
  raises quiet_env sync_playwright_start = None /\
  exists t,
    trace (BrowserbaseBrowser.__enter__ quiet_env
             (BrowserbaseBrowser.__init__ (Some 800) (Some 600) None None None None))
    = Called sync_playwright_start
      :: Called (sessions_create (800, 600) false "us-west-2" false)
      :: t.
Proof.
  split; [reflexivity|].
  apply (proj2 (browserbase_session_request quiet_env eq_refl)
           (Some 800) (Some 600) None None None None).
Defined.

(** The calls [__enter__] of LumiTeh makes, and how it ends, are the same
    for every instance: the width, height and proxy given to the
    constructor reach no call on the backend or the engine. *)
Theorem lumiteh_enter_ignores_arguments (env : Env) :
  (forall s s',
     trace (LumiTehBrowser.__enter__ env s) = trace (LumiTehBrowser.__enter__ env s') /\
     result (LumiTehBrowser.__enter__ env s) = result (LumiTehBrowser.__enter__ env s')) /\
  (forall width height proxy width' height' proxy',
     trace (LumiTehBrowser.__enter__ env (LumiTehBrowser.__init__ width height proxy))
     = trace (LumiTehBrowser.__enter__ env
                (LumiTehBrowser.__init__ width' height' proxy'))).
Proof.
  assert (Hall : forall s s',
     trace (LumiTehBrowser.__enter__ env s) = trace (LumiTehBrowser.__enter__ env s') /\
     result (LumiTehBrowser.__enter__ env s) = result (LumiTehBrowser.__enter__ env s')).
  { intros s s'.
    unfold LumiTehBrowser.__enter__, BasePlaywrightComputer.__enter__,
      LumiTehBrowser._get_browser_and_page.
    destruct s as [pw b p se [w h] rg px vm ab].
    destruct s' as [pw' b' p' se' [w' h'] rg' px' vm' ab'].
    engine_cases env; split; reflexivity. }
  split; [exact Hall|]. intros. apply Hall.
Qed.

(** A [with] block on an engine whose calls return: what [__enter__] of a
    remote backend acquired, [__exit__] releases.  The block returns; the
    engine calls of the exit are, in order, the closing of the page the
    bootstrap made current, the closing of the browser connection and the
    stopping of the engine; and the replay link of the session that was
    created is printed. *)
Theorem with_block_releases (env : Env) (s : Self) (p0 : Page) (ps : list Page)
    (cs : list (list Page)) (enter exit : M unit) (replay : string) :
  (enter = BrowserbaseBrowser.__enter__ /\ exit = BrowserbaseBrowser.__exit__ /\
   replay = "Session completed. View replay at https://browserbase.com/sessions/") \/
  (enter = LumiTehBrowser.__enter__ /\ exit = LumiTehBrowser.__exit__ /\
   replay = "Session completed. View replay at https://lumiteh.com/sessions/") ->
  (forall c, raises env c = None) ->
  contexts env = (p0 :: ps) :: cs ->
  let r := (enter ;; exit) env s in
  result r = Ok tt /\
  calls_of (trace r)
  = calls_of (trace (enter env s)) ++ [page_close p0; browser_close; playwright_stop] /\
  Printed (replay +:+ session_id (new_session env)) ∈ trace r.
Proof.
  intros Hsel Hq Hc r. subst r. rewrite bind_run.
  destruct Hsel as [(-> & -> & ->) | (-> & -> & ->)].
  - rewrite (browserbase_enter_run env s p0 ps cs Hq Hc). cbn [trace fst snd].
    unfold BrowserbaseBrowser.__exit__, entered. run_m. cbn. rewrite !Hq. cbn.
    split; [reflexivity|]. split.
    + unfold calls_of. rewrite omap_app. reflexivity.
    + repeat (apply list_elem_of_further). rewrite elem_of_app. right. repeat constructor.
  - rewrite (lumiteh_enter_run env s p0 ps cs Hq Hc). cbn [trace fst snd].
    unfold LumiTehBrowser.__exit__, entered. run_m. cbn. rewrite !Hq. cbn.
    split; [reflexivity|]. split.
    + reflexivity.
    + repeat constructor.
Qed.

Lemma with_block_releases_witness :
  ((LumiTehBrowser.__enter__ = BrowserbaseBrowser.__enter__ /\
    LumiTehBrowser.__exit__ = BrowserbaseBrowser.__exit__ /\
    "Session completed. View replay at https://lumiteh.com/sessions/"
    = "Session completed. View replay at https://browserbase.com/sessions/") \/
   (LumiTehBrowser.__enter__ = LumiTehBrowser.__enter__ /\
    LumiTehBrowser.__exit__ = LumiTehBrowser.__exit__ /\
    "Session completed. View replay at https://lumiteh.com/sessions/"
    = "Session completed. View replay at https://lumiteh.com/sessions/")) /\
  (forall c, raises quiet_env c = None) /\
  contexts quiet_env = (PageRef 0 :: []) :: [] /\
  result ((LumiTehBrowser.__enter__ ;; LumiTehBrowser.__exit__) quiet_env
            (LumiTehBrowser.__init__ None None None)) = Ok tt /\
  calls_of (trace ((LumiTehBrowser.__enter__ ;; LumiTehBrowser.__exit__) quiet_env
                     (LumiTehBrowser.__init__ None None None)))
  = [ sync_playwright_start; sessions_start; sessions_debug_info "s1";
      connect_over_cdp 60000; context_on_page; page_on_close (PageRef 0);
      page_goto (PageRef 0) "https://bing.com"; page_route (PageRef 0) "**/*";
      page_close (PageRef 0); browser_close; playwright_stop ] /\
  Printed "Session completed. View replay at https://lumiteh.com/sessions/s1"
  ∈ trace ((LumiTehBrowser.__enter__ ;; LumiTehBrowser.__exit__) quiet_env
             (LumiTehBrowser.__init__ None None None)).
Proof.
  split; [right; repeat split|]. split; [reflexivity|]. split; [reflexivity|].
  destruct (with_block_releases quiet_env (LumiTehBrowser.__init__ None None None)
              (PageRef 0) [] [] LumiTehBrowser.__enter__ LumiTehBrowser.__exit__
              "Session completed. View replay at https://lumiteh.com/sessions/"
              (or_intror (conj eq_refl (conj eq_refl eq_refl)))
              (fun _ => eq_refl) eq_refl) as (Hres & Hcalls & Hreplay).
  split; [exact Hres|]. split; [|exact Hreplay].
  rewrite Hcalls. reflexivity.
Defined.

(** ** The current page over a run of events *)

(** The closure handler of a connected computer, in one equation. *)
Lemma page_close_run (env : Env) (s : Self) (page : Page) (b : Browser)
    (pages : list Page) (rest : list (list Page)) (handler : Page -> M unit) :
  handler = BrowserbaseBrowser._handle_page_close \/
  handler = LumiTehBrowser._handle_page_close ->
  _browser s = Some b ->
  contexts env = pages :: rest ->
  handler page env s
  = if decide (_page s = Some page)
    then (set_page (last pages) s,
          Printed "Page closed"
            :: (if pages is [] then [Printed "Warning: All pages have been closed."]
                else []),
          Ok tt)
    else (s, [Printed "Page closed"], Ok tt).
Proof.
  intros Hsel Hb Hc.
  assert (Hsame : handler page env s
                  = BrowserbaseBrowser._handle_page_close page env s).
  { destruct Hsel as [-> | ->]; reflexivity. }
  rewrite Hsame. unfold BrowserbaseBrowser._handle_page_close. run_m.
  destruct (decide (_page s = Some page)) as [Heq|Hne]; [|reflexivity].
  rewrite Hb. cbv beta iota. rewrite Hc. destruct pages; reflexivity.
Qed.

(** The current page never points to a closed page, as long as the closure
    handler is registered on every open page.  On a connected computer of
    either remote backend whose open pages are all tracked, whatever pages
    open and close and in whatever order, every handler returns, and after
    each run of events the current page is one of the open pages; it is
    [None] only when no page is open.  Every open page is tracked again
    afterwards. *)
Theorem current_page_stays_open (env : Env) (evs : list PageEvent)
    (tracked pages : list Page) (s : Self) (b : Browser)
    (new_page page_close : Page -> M unit) :
  (new_page = BrowserbaseBrowser._handle_new_page /\
   page_close = BrowserbaseBrowser._handle_page_close) \/
  (new_page = LumiTehBrowser._handle_new_page /\
   page_close = LumiTehBrowser._handle_page_close) ->
  _browser s = Some b ->
  (forall q, raises env (page_on_close q) = None) ->
  (forall q, q ∈ pages -> q ∈ tracked) ->
  current_page_open pages s ->
  exists s' t tracked' pages',
    react new_page page_close evs tracked pages env s = (s', t, Ok (tracked', pages')) /\
    pages' = foldl (fun ps ev => pages_after ev ps) pages evs /\
    _browser s' = Some b /\
    (forall q, q ∈ pages' -> q ∈ tracked') /\
    current_page_open pages' s'.
Proof.
  intros Hsel Hb Hq.
  assert (Hnew : new_page = BrowserbaseBrowser._handle_new_page \/
                 new_page = LumiTehBrowser._handle_new_page)
    by (destruct Hsel as [[-> _] | [-> _]]; [left | right]; reflexivity).
  assert (Hclose : page_close = BrowserbaseBrowser._handle_page_close \/
                   page_close = LumiTehBrowser._handle_page_close)
    by (destruct Hsel as [[_ ->] | [_ ->]]; [left | right]; reflexivity).
  clear Hsel. revert tracked pages s Hb.
  induction evs as [|ev evs IH]; intros tracked pages s Hb Htr Hinv.
  - exists s, [], tracked, pages. repeat split; assumption.
  - cbn [react foldl]. rewrite bind_run. unfold listen, with_pages.
    destruct ev as [p | p]; cbn [pages_after].
    + rewrite (new_page_run (with_contexts [pages ++ [p]] env) s p new_page Hnew (Hq p)).
      cbn [attrs trace result fst snd close_handlers omap list_omap].
      destruct (IH (tracked ++ [p]) (pages ++ [p]) (set_page (Some p) s) Hb)
        as (s' & t & tracked' & pages' & Hrun & Hrest).
      { intros q Hin. apply elem_of_app in Hin as [Hin | Hin];
          apply elem_of_app; [left; apply Htr, Hin | right; exact Hin]. }
      { unfold current_page_open. cbn. apply elem_of_app. right. left. }
      rewrite Hrun. eexists _, _, _, _. split; [reflexivity | exact Hrest].
    + assert (Hsub : forall q, q ∈ filter (fun q => q <> p) pages -> q ∈ tracked).
      { intros q Hin. apply list_elem_of_filter in Hin as [_ Hin]. apply Htr, Hin. }
      destruct (decide (p ∈ tracked)) as [Hin|Hout].
      * rewrite (page_close_run (with_contexts [filter (fun q => q <> p) pages] env) s p b
                   (filter (fun q => q <> p) pages) [] page_close Hclose Hb eq_refl).
        destruct (decide (_page s = Some p)) as [Heq|Hne];
          cbn [attrs trace result fst snd].
        -- destruct (IH (tracked ++ close_handlers
                           (Printed "Page closed"
                              :: (if filter (fun q => q <> p) pages is []
                                  then [Printed "Warning: All pages have been closed."]
                                  else [])))
                       (filter (fun q => q <> p) pages)
                       (set_page (last (filter (fun q => q <> p) pages)) s) Hb)
             as (s' & t & tracked' & pages' & Hrun & Hrest).
           { intros q Hq'. apply elem_of_app. left. apply Hsub, Hq'. }
           { unfold current_page_open. cbn.
             destruct (last (filter (fun q => q <> p) pages)) as [q|] eqn:Hlast.
             - apply last_Some in Hlast as (l' & ->). apply elem_of_app. right. left.
             - apply last_None in Hlast. exact Hlast. }
           rewrite Hrun. eexists _, _, _, _. split; [reflexivity | exact Hrest].
        -- destruct (IH (tracked ++ close_handlers [Printed "Page closed"])
                       (filter (fun q => q <> p) pages) s Hb)
             as (s' & t & tracked' & pages' & Hrun & Hrest).
           { intros q Hq'. apply elem_of_app. left. apply Hsub, Hq'. }
           { unfold current_page_open in *.
             destruct (_page s) as [q|].
             - apply list_elem_of_filter. split; [congruence | exact Hinv].
             - rewrite Hinv. reflexivity. }
           rewrite Hrun. eexists _, _, _, _. split; [reflexivity | exact Hrest].
      * cbn [mret M_ret attrs trace result fst snd].
        change ((mret tt : M unit) (with_contexts [filter (fun q => q <> p) pages] env) s)
          with (s, @nil Event, Ok tt).
        cbn [attrs trace result fst snd].
        destruct (IH (tracked ++ close_handlers []) (filter (fun q => q <> p) pages) s Hb)
          as (s' & t & tracked' & pages' & Hrun & Hrest).
        { intros q Hq'. apply elem_of_app. left. apply Hsub, Hq'. }
        { unfold current_page_open in *.
          destruct (_page s) as [q|].
          - apply list_elem_of_filter. split; [|exact Hinv].
            intros ->. apply Hout, Htr, Hinv.
          - rewrite Hinv. reflexivity. }
        rewrite Hrun. eexists _, _, _, _. split; [reflexivity | exact Hrest].
Qed.

Lemma current_page_stays_open_witness :
  ((BrowserbaseBrowser._handle_new_page = BrowserbaseBrowser._handle_new_page /\
    BrowserbaseBrowser._handle_page_close = BrowserbaseBrowser._handle_page_close) \/
   (BrowserbaseBrowser._handle_new_page = LumiTehBrowser._handle_new_page /\
    BrowserbaseBrowser._handle_page_close = LumiTehBrowser._handle_page_close)) /\
  _browser entered_self = Some browser_handle /\
  (forall q, raises quiet_env (page_on_close q) = None) /\
  (forall q, q ∈ [PageRef 0] -> q ∈ [PageRef 0]) /\
  current_page_open [PageRef 0] entered_self /\
  exists s' t tracked' pages',
    react BrowserbaseBrowser._handle_new_page BrowserbaseBrowser._handle_page_close
      [page_opened (PageRef 1); page_opened (PageRef 2); page_closed (PageRef 2);
       page_closed (PageRef 0)]
      [PageRef 0] [PageRef 0] quiet_env entered_self
    = (s', t, Ok (tracked', pages')) /\
    pages' = [PageRef 1] /\ current_page_open pages' s'.
Proof.
  assert (Hinv : current_page_open [PageRef 0] entered_self) by (cbv; left).
  split; [left; split; reflexivity|]. split; [reflexivity|].
  split; [reflexivity|]. split; [exact (fun q H => H)|]. split; [exact Hinv|].
  destruct (current_page_stays_open quiet_env
              [page_opened (PageRef 1); page_opened (PageRef 2);
               page_closed (PageRef 2); page_closed (PageRef 0)]
              [PageRef 0] [PageRef 0] entered_self browser_handle
              BrowserbaseBrowser._handle_new_page BrowserbaseBrowser._handle_page_close
              (or_introl (conj eq_refl eq_refl)) eq_refl (fun _ => eq_refl)
              (fun q H => H) Hinv)
    as (s' & t & tracked' & pages' & Hrun & Hpages & _ & _ & Hopen).
  exists s', t, tracked', pages'. split; [exact Hrun|]. split; [|exact Hopen].
  rewrite Hpages. reflexivity.
Defined.

(** The bootstrap registers the closure handler on the first page of the
    context only.  When the context holds two pages at the bootstrap, the
    second is open and not tracked.  Once the first page closes, the
    handler makes the second page current; when that page closes too, no
    handler runs and the current page is left pointing to a page that is
    closed. *)
Example current_page_stale :
  let env := with_contexts [[PageRef 0; PageRef 1]] quiet_env in
  let r := BrowserbaseBrowser.__enter__ env fresh_self in
  _page (attrs r) = Some (PageRef 0) /\
  close_handlers (trace r) = [PageRef 0] /\
  let r' := react BrowserbaseBrowser._handle_new_page
              BrowserbaseBrowser._handle_page_close
              [page_closed (PageRef 0); page_closed (PageRef 1)]
              (close_handlers (trace r)) [PageRef 0; PageRef 1] env (attrs r) in
  result r' = Ok ([PageRef 0], []) /\
  trace r' = [Printed "Page closed"] /\
  _page (attrs r') = Some (PageRef 1) /\
  ~ current_page_open [] (attrs r').
Proof.
  cbv zeta. split; [reflexivity|]. split; [reflexivity|].
  split; [reflexivity|]. split; [reflexivity|]. split; [reflexivity|].
  unfold current_page_open.
  change (_page (attrs (react BrowserbaseBrowser._handle_new_page
              BrowserbaseBrowser._handle_page_close
              [page_closed (PageRef 0); page_closed (PageRef 1)]
              (close_handlers (trace (BrowserbaseBrowser.__enter__
                 (with_contexts [[PageRef 0; PageRef 1]] quiet_env) fresh_self)))
              [PageRef 0; PageRef 1]
              (with_contexts [[PageRef 0; PageRef 1]] quiet_env)
              (attrs (BrowserbaseBrowser.__enter__
                 (with_contexts [[PageRef 0; PageRef 1]] quiet_env) fresh_self)))))
    with (Some (PageRef 1)).
  intros Hin. apply elem_of_nil in Hin. exact Hin.
Qed.

(** A left click on the current page, whatever the engine answers. *)
Lemma left_click_run (env : Env) (s : Self) (p : Page) (x y : Z) :
  _page s = Some p ->
  exists r,
    BasePlaywrightComputer.click x y "left" env s
    = (s, [Called (mouse_click p x y "left")], r).
Proof.
  intros Hp. unfold BasePlaywrightComputer.click.
  repeat (case_decide; [discriminate|]).
  run_m. rewrite Hp. eexists. reflexivity.
Qed.

(** ** After a new page *)

Section AfterNewPage.

Variable page_url : Page -> string.

(** Once a new page has been created, the primitives work on it: the
    next click goes to the new page, the default screenshot is the
    base64 text of the new page's PNG, and the current URL is the new
    page's URL. *)
Theorem primitives_follow_new_page (env : Env) (s : Self) (p1 : Page)
    (new_page : Page -> M unit) :
  new_page = BrowserbaseBrowser._handle_new_page \/
  new_page = LumiTehBrowser._handle_new_page ->
  raises env (page_on_close p1) = None ->
  (forall x y,
     calls_of (trace ((new_page p1 ;; BasePlaywrightComputer.click x y "left") env s))
     = [page_on_close p1; mouse_click p1 x y "left"]) /\
  result ((new_page p1 ;; BasePlaywrightComputer.screenshot) env s)
  = match raises env (page_screenshot p1 false) with
    | None => Ok (b64encode (screenshot_png env p1))
    | Some e => Raise e
    end /\
  result ((new_page p1 ;; BasePlaywrightComputer.get_current_url page_url) env s)
  = Ok (page_url p1).
Proof.
  intros Hsel Hq. split; [|split].
  - intros x y. rewrite bind_run, (new_page_run env s p1 new_page Hsel Hq).
    assert (Hp : _page (set_page (Some p1) s) = Some p1) by reflexivity.
    destruct (left_click_run env (set_page (Some p1) s) p1 x y Hp) as (r & Hrun).
    rewrite Hrun. reflexivity.
  - rewrite bind_run, (new_page_run env s p1 new_page Hsel Hq).
    unfold BasePlaywrightComputer.screenshot. run_m. cbn.
    destruct (raises env (page_screenshot p1 false)); reflexivity.
  - rewrite bind_run, (new_page_run env s p1 new_page Hsel Hq). reflexivity.
Qed.

End AfterNewPage.

Lemma primitives_follow_new_page_witness :
  (LumiTehBrowser._handle_new_page = BrowserbaseBrowser._handle_new_page \/
   LumiTehBrowser._handle_new_page = LumiTehBrowser._handle_new_page) /\
  raises quiet_env (page_on_close (PageRef 4)) = None /\
  result ((LumiTehBrowser._handle_new_page (PageRef 4) ;;
           BasePlaywrightComputer.get_current_url
             (fun p => match p with PageRef n => "https://example.com/" +:+ pretty n end))
            quiet_env entered_self)
  = Ok "https://example.com/4".
Proof.
  split; [right; reflexivity|]. split; [reflexivity|].
  pose proof (primitives_follow_new_page
                (fun p => match p with PageRef n => "https://example.com/" +:+ pretty n end)
                quiet_env entered_self (PageRef 4) LumiTehBrowser._handle_new_page
                (or_intror eq_refl) eq_refl) as (_ & _ & Hurl).
  rewrite Hurl. reflexivity.
Defined.

(** ** More on screenshots *)

(** When the capture over CDP returns, the screenshot of a remote backend
    is the ["data"] entry of the reply as it came: the default screenshot
    is not taken, nothing is encoded again and nothing is printed. *)
Theorem screenshot_returns_capture (env : Env) (s : Self) (p : Page) (data : string) :
  _page s = Some p ->
  raises env (new_cdp_session p) = None ->
  raises env (cdp_send p "Page.captureScreenshot") = None ->
  capture_reply env p !! "data" = Some data ->
  BrowserbaseBrowser.screenshot env s
  = (s, [Called (new_cdp_session p); Called (cdp_send p "Page.captureScreenshot")],
     Ok data) /\
  LumiTehBrowser.screenshot env s
  = (s, [Called (new_cdp_session p); Called (cdp_send p "Page.captureScreenshot")],
     Ok data).
Proof.
  intros Hp Hnew Hsend Hdata. split.
  - unfold BrowserbaseBrowser.screenshot, try_except, BrowserbaseBrowser.cdp_capture.
    run_m. rewrite Hp, Hnew, Hsend, Hdata. reflexivity.
  - unfold LumiTehBrowser.screenshot, try_except, LumiTehBrowser.cdp_capture.
    run_m. rewrite Hp, Hnew, Hsend, Hdata. reflexivity.
Qed.

Lemma screenshot_returns_capture_witness :
  _page entered_self = Some (PageRef 0) /\
  capture_reply quiet_env (PageRef 0) !! "data" = Some "iVBORw==" /\
  result (LumiTehBrowser.screenshot quiet_env entered_self) = Ok "iVBORw==".
Proof.
  split; [reflexivity|]. split; [reflexivity|].
  pose proof (screenshot_returns_capture quiet_env entered_self (PageRef 0) "iVBORw=="
                eq_refl eq_refl eq_refl eq_refl) as (_ & Hl).
  rewrite Hl. reflexivity.
Defined.

(** When the capture over CDP raises a [PlaywrightError] and the default
    screenshot raises too, the caller gets the exception of the default
    screenshot; the error of the capture is only printed. *)
Theorem screenshot_fallback_fails (env : Env) (s : Self) (e e' : Exn) :
  result (BrowserbaseBrowser.cdp_capture env s) = Raise e ->
  is_PlaywrightError e = true ->
  result (BasePlaywrightComputer.screenshot env s) = Raise e' ->
  result (BrowserbaseBrowser.screenshot env s) = Raise e' /\
  result (LumiTehBrowser.screenshot env s) = Raise e' /\
  Printed ("CDP screenshot failed, falling back to default screenshot: " +:+ str_exn e)
    ∈ trace (BrowserbaseBrowser.screenshot env s) /\
  Printed ("CDP screenshot failed, falling back to standard screenshot: " +:+ str_exn e)
    ∈ trace (LumiTehBrowser.screenshot env s).
Proof.
  intros Hcap Hpw Hdef.
  pose proof (cdp_capture_attrs env s) as Hs.
  unfold BrowserbaseBrowser.screenshot, LumiTehBrowser.screenshot.
  rewrite (try_except_caught _ _ _ _ env s e Hcap Hpw).
  rewrite (try_except_caught _ LumiTehBrowser.cdp_capture _ _ env s e Hcap Hpw).
  change (LumiTehBrowser.cdp_capture env s) with (BrowserbaseBrowser.cdp_capture env s).
  rewrite Hs, !bind_run. cbn [print].
  destruct (BasePlaywrightComputer.screenshot env s) as [[s2 t2] r2].
  cbn [result trace fst snd] in *. subst r2.
  repeat split; apply elem_of_app; right; left.
Qed.

Lemma screenshot_fallback_fails_witness :
  result (BrowserbaseBrowser.cdp_capture
            (with_raises (fun _ => Some (PlaywrightError "Target closed")) quiet_env)
            entered_self)
    = Raise (PlaywrightError "Target closed") /\
  is_PlaywrightError (PlaywrightError "Target closed") = true /\
  result (BasePlaywrightComputer.screenshot
            (with_raises (fun _ => Some (PlaywrightError "Target closed")) quiet_env)
            entered_self)
    = Raise (PlaywrightError "Target closed") /\
  result (BrowserbaseBrowser.screenshot
            (with_raises (fun _ => Some (PlaywrightError "Target closed")) quiet_env)
            entered_self)
    = Raise (PlaywrightError "Target closed").
Proof.
  split; [reflexivity|]. split; [reflexivity|]. split; [reflexivity|].
  apply (screenshot_fallback_fails
           (with_raises (fun _ => Some (PlaywrightError "Target closed")) quiet_env)
           entered_self (PlaywrightError "Target closed")
           (PlaywrightError "Target closed") eq_refl eq_refl eq_refl).
Defined.

(** ** The verdict on a request *)

(** The route handler gives every request exactly one verdict: it aborts
    the request when its URL is blocklisted, after printing the URL, and
    lets it continue otherwise.  It never does both, and it writes no
    attribute. *)
Theorem handle_route_verdict (env : Env) (s : Self) (url : string) :
  calls_of (trace (BasePlaywrightComputer.handle_route url env s))
  = [if check_blocklisted_url env url then route_abort url else route_continue url] /\
  (Printed ("Flagging blocked domain: " +:+ url)
     ∈ trace (BasePlaywrightComputer.handle_route url env s)
   <-> check_blocklisted_url env url = true) /\
  attrs (BasePlaywrightComputer.handle_route url env s) = s.
Proof.
  unfold BasePlaywrightComputer.handle_route. run_m.
  destruct (check_blocklisted_url env url); cbn.
  - split; [reflexivity|]. split; [|reflexivity]. split; [reflexivity|]. intros _. left.
  - split; [reflexivity|]. split; [|reflexivity]. split; [|discriminate].
    intros Hin. in_trace Hin.
Qed.

(** ** The DOM tree and scrolling *)

Section Evaluate.

Variable page_evaluate :
  Page -> string -> option ParsingConfig -> M (option DomTreeDict).
Variable read_text : M string.

(** [dom] hands the extraction script, with highlighting on, no focused
    element and a viewport expansion of 500, to the current page and
    returns exactly the tree the engine gives back.  When the engine
    gives back nothing it raises [ValueError]; it never returns a tree of
    its own making.  What the evaluation raises is passed on. *)
Theorem dom_returns_engine_tree (env : Env) (s : Self) (p : Page) (js : string)
    (t0 : list Event) :
  _page s = Some p ->
  read_text env s = (s, t0, Ok js) ->
  let evaluated :=
    page_evaluate p js
      (Some {| highlight_elements := true; focus_element := -1;
               viewport_expansion := 500 |}) env s in
  let r := BasePlaywrightComputer.dom page_evaluate read_text env s in
  (result evaluated = Ok None ->
   result r = Raise (ValueError "Cannot get DOM from current page")) /\
  (forall tree, result r = Ok tree <-> result evaluated = Ok (Some tree)) /\
  (forall e, result evaluated = Raise e -> result r = Raise e) /\
  trace r = t0 ++ trace evaluated.
Proof.
  intros Hp Hread evaluated r. subst evaluated r.
  unfold BasePlaywrightComputer.dom. cbv zeta.
  rewrite bind_run, Hread, (page_attr_bind _ "evaluate" _ env s p Hp), bind_run.
  destruct (page_evaluate p js _ env s) as [[s1 t1] [[tree|]|e]]; run_m.
  - repeat split; try discriminate.
    + intros Heq. injection Heq as ->. reflexivity.
    + intros Heq. injection Heq as ->. reflexivity.
    + rewrite app_nil_r. reflexivity.
  - repeat split; try discriminate. rewrite app_nil_r. reflexivity.
  - repeat split; try discriminate.
    intros e' Heq. injection Heq as ->. reflexivity.
Qed.

(** [scroll] moves the pointer to [(x, y)] first and scrolls the window
    by the given amounts after that.  When the move raises, nothing is
    evaluated on the page; when it returns, the trace is the move
    followed by what the evaluation of [window.scrollBy] leaves, with the
    amounts in decimal notation. *)
Theorem scroll_moves_first (env : Env) (s : Self) (p : Page)
    (x y scroll_x scroll_y : Z) :
  _page s = Some p ->
  (forall e,
     raises env (mouse_move p x y) = Some e ->
     BasePlaywrightComputer.scroll page_evaluate x y scroll_x scroll_y env s
     = (s, [Called (mouse_move p x y)], Raise e)) /\
  (raises env (mouse_move p x y) = None ->
   let evaluated :=
     page_evaluate p
       ("window.scrollBy(" +:+ pretty scroll_x +:+ ", " +:+ pretty scroll_y +:+ ")")
       None env s in
   trace (BasePlaywrightComputer.scroll page_evaluate x y scroll_x scroll_y env s)
   = Called (mouse_move p x y) :: trace evaluated /\
   attrs (BasePlaywrightComputer.scroll page_evaluate x y scroll_x scroll_y env s)
   = attrs evaluated /\
   (result (BasePlaywrightComputer.scroll page_evaluate x y scroll_x scroll_y env s)
    = Ok tt <-> exists v, result evaluated = Ok v)).
Proof.
  intros Hp. unfold BasePlaywrightComputer.scroll. split.
  - intros e He.
    rewrite (page_attr_bind _ "mouse" _ env s p Hp).
    apply call_bind_raise. exact He.
  - intros Hmove. cbv zeta.
    rewrite (page_attr_bind _ "mouse" _ env s p Hp), call_bind_ok by exact Hmove.
    rewrite (page_attr_bind _ "evaluate" _ env s p Hp), bind_run.
    destruct (page_evaluate p _ None env s) as [[s1 t1] [v|e]]; run_m.
    + rewrite app_nil_r. split; [reflexivity|]. split; [reflexivity|]. split.
      * intros _. exists v. reflexivity.
      * intros _. reflexivity.
    + split; [reflexivity|]. split; [reflexivity|]. split.
      * discriminate.
      * intros (v & Hv). discriminate Hv.
Qed.

End Evaluate.

Lemma dom_returns_engine_tree_witness :
  _page entered_self = Some (PageRef 0) /\
  (mret "buildDomTree" : M string) quiet_env entered_self
  = (entered_self, [], Ok "buildDomTree") /\
  result (BasePlaywrightComputer.dom (fun _ _ _ => mret None) (mret "buildDomTree")
            quiet_env entered_self)
  = Raise (ValueError "Cannot get DOM from current page").
Proof.
  split; [reflexivity|]. split; [reflexivity|].
  pose proof (dom_returns_engine_tree (fun _ _ _ => mret None) (mret "buildDomTree")
                quiet_env entered_self (PageRef 0) "buildDomTree" [] eq_refl eq_refl)
    as (Hnone & _).
  apply Hnone. reflexivity.
Defined.

Lemma scroll_moves_first_witness :
  _page entered_self = Some (PageRef 0) /\
  raises quiet_env (mouse_move (PageRef 0) 10 20) = None /\
  trace (BasePlaywrightComputer.scroll
           (fun _ script _ => print script ;; mret None) 10 20 0 (-120)
           quiet_env entered_self)
  = [Called (mouse_move (PageRef 0) 10 20); Printed "window.scrollBy(0, -120)"].
Proof.
  split; [reflexivity|]. split; [reflexivity|].
  pose proof (proj2 (scroll_moves_first (fun _ script _ => print script ;; mret None)
                       quiet_env entered_self (PageRef 0) 10 20 0 (-120) eq_refl)
                eq_refl) as (Ht & _).
  rewrite Ht. reflexivity.
Defined.

(** ** The text of a screenshot *)

(** A byte below the bits of a multiple of a power of two adds to it. *)
Lemma lor_disjoint (hi lo k : Z) :
  0 <= k -> 0 <= lo < 2 ^ k -> Z.lor (hi * 2 ^ k) lo = hi * 2 ^ k + lo.
Proof.
  intros Hk Hlo.
  rewrite <- Z.lxor_lor, <- Z.add_nocarry_lxor; try reflexivity.
  all: apply Z.bits_inj'; intros i Hi; rewrite Z.land_spec, Z.bits_0.
  all: destruct (Z.lt_ge_cases i k) as [Hlt|Hge].
  all: try (rewrite Z.mul_pow2_bits_low by lia; reflexivity).
  all: rewrite <- (Z.mod_small lo (2 ^ k)) by lia.
  all: rewrite Z.mod_pow2_bits_high by lia; apply andb_false_r.
Qed.

(** The alphabet has each six-bit group once, and no padding sign. *)
Lemma b64_index_char (i : Z) :
  0 <= i < 64 -> b64_index (b64_char i) = Some i /\ b64_char i <> "="%char.
Proof.
  intros Hi.
  assert (Hall : forallb (fun n => let i := Z.of_nat n in
                 bool_decide (b64_index (b64_char i) = Some i) &&
                 negb (Ascii.eqb (b64_char i) "=")) (seq 0 64) = true)
    by (vm_compute; reflexivity).
  rewrite forallb_forall in Hall.
  specialize (Hall (Z.to_nat i)). rewrite Z2Nat.id in Hall by lia.
  cbv zeta in Hall.
  assert (Hin : In (Z.to_nat i) (seq 0 64)) by (apply in_seq; lia).
  apply Hall in Hin. apply andb_prop in Hin as [H1 H2].
  apply bool_decide_eq_true_1 in H1. split; [exact H1|].
  intros Heq. rewrite Heq in H2. discriminate H2.
Qed.

(** Three bytes side by side, as a number. *)
Lemma lor_bytes (a b c : Z) :
  is_byte b -> is_byte c ->
  Z.lor (Z.lor (Z.shiftl a 16) (Z.shiftl b 8)) c = a * 65536 + b * 256 + c.
Proof.
  unfold is_byte. intros Hb Hc.
  rewrite !Z.shiftl_mul_pow2 by lia.
  rewrite (lor_disjoint a (b * 2 ^ 8) 16) by (change (2 ^ 8) with 256; change (2 ^ 16) with 65536; lia).
  replace (a * 2 ^ 16 + b * 2 ^ 8) with ((a * 256 + b) * 2 ^ 8)
    by (change (2 ^ 8) with 256; change (2 ^ 16) with 65536; lia).
  rewrite (lor_disjoint (a * 256 + b) c 8) by (change (2 ^ 8) with 256; lia).
  change (2 ^ 8) with 256. lia.
Qed.

(** The six-bit groups of three, two and one bytes. *)
Lemma groups3 (a b c : Z) :
  is_byte a -> is_byte b -> is_byte c ->
  let n := Z.lor (Z.lor (Z.shiftl a 16) (Z.shiftl b 8)) c in
  Z.shiftr n 18 = a / 4 /\
  Z.land (Z.shiftr n 12) 63 = (a mod 4) * 16 + b / 16 /\
  Z.land (Z.shiftr n 6) 63 = (b mod 16) * 4 + c / 64 /\
  Z.land n 63 = c mod 64.
Proof.
  intros Ha Hb Hc. cbv zeta. rewrite (lor_bytes a b c Hb Hc).
  unfold is_byte in *.
  rewrite !Z.shiftr_div_pow2 by lia.
  change 63 with (Z.ones 6). rewrite !Z.land_ones by lia.
  change (2 ^ 18) with 262144. change (2 ^ 12) with 4096. change (2 ^ 6) with 64.
  repeat split; Z.div_mod_to_equations; lia.
Qed.

Lemma groups2 (a b : Z) :
  is_byte a -> is_byte b ->
  let n := Z.lor (Z.shiftl a 16) (Z.shiftl b 8) in
  Z.shiftr n 18 = a / 4 /\
  Z.land (Z.shiftr n 12) 63 = (a mod 4) * 16 + b / 16 /\
  Z.land (Z.shiftr n 6) 63 = (b mod 16) * 4.
Proof.
  intros Ha Hb. cbv zeta.
  assert (H0 : is_byte 0) by (unfold is_byte; lia).
  pose proof (groups3 a b 0 Ha Hb H0) as (H1 & H2 & H3 & _). cbv zeta in *.
  rewrite Z.lor_0_r in *. rewrite H1, H2, H3. repeat split.
  change (0 / 64) with 0. lia.
Qed.

Lemma groups1 (a : Z) :
  is_byte a ->
  let n := Z.shiftl a 16 in
  Z.shiftr n 18 = a / 4 /\
  Z.land (Z.shiftr n 12) 63 = (a mod 4) * 16.
Proof.
  intros Ha. cbv zeta.
  assert (H0 : is_byte 0) by (unfold is_byte; lia).
  pose proof (groups2 a 0 Ha H0) as (H1 & H2 & _). cbv zeta in *.
  change (Z.shiftl 0 8) with 0 in *. rewrite Z.lor_0_r in *.
  rewrite H1, H2. repeat split. change (0 / 16) with 0. lia.
Qed.

Lemma b64decode_encode_aux (n : nat) (bs : list Z) :
  (length bs <= n)%nat -> Forall is_byte bs -> b64decode (b64encode bs) = Some bs.
Proof.
  revert bs. induction n as [|n IH]; intros bs Hlen Hbytes.
  - destruct bs; [reflexivity | cbn in Hlen; lia].
  - destruct bs as [|a [|b [|c rest]]]; [reflexivity | | |].
    + apply Forall_cons in Hbytes as [Ha _].
      destruct (groups1 a Ha) as (H1 & H2). cbv zeta in *.
      cbn [b64encode b64decode]. cbv zeta. rewrite H1, H2.
      assert (Hg1 : 0 <= a / 4 < 64) by (unfold is_byte in Ha; Z.div_mod_to_equations; lia).
      assert (Hg2 : 0 <= a mod 4 * 16 < 64) by (unfold is_byte in Ha; Z.div_mod_to_equations; lia).
      rewrite (proj1 (b64_index_char _ Hg1)), (proj1 (b64_index_char _ Hg2)).
      cbn. f_equal. f_equal. unfold is_byte in Ha. Z.div_mod_to_equations; lia.
    + apply Forall_cons in Hbytes as [Ha Hbytes]. apply Forall_cons in Hbytes as [Hb _].
      destruct (groups2 a b Ha Hb) as (H1 & H2 & H3). cbv zeta in *.
      cbn [b64encode b64decode]. cbv zeta. rewrite H1, H2, H3.
      unfold is_byte in Ha, Hb.
      assert (Hg1 : 0 <= a / 4 < 64) by (Z.div_mod_to_equations; lia).
      assert (Hg2 : 0 <= a mod 4 * 16 + b / 16 < 64) by (Z.div_mod_to_equations; lia).
      assert (Hg3 : 0 <= b mod 16 * 4 < 64) by (Z.div_mod_to_equations; lia).
      rewrite (proj1 (b64_index_char _ Hg1)), (proj1 (b64_index_char _ Hg2)).
      cbn [mbind option_bind].
      destruct (Ascii.eqb_spec (b64_char (b mod 16 * 4)) "=") as [Heq|_];
        [exfalso; exact (proj2 (b64_index_char _ Hg3) Heq)|].
      rewrite (proj1 (b64_index_char _ Hg3)). cbn.
      f_equal. f_equal; [|f_equal]; Z.div_mod_to_equations; lia.
    + apply Forall_cons in Hbytes as [Ha Hbytes]. apply Forall_cons in Hbytes as [Hb Hbytes].
      apply Forall_cons in Hbytes as [Hc Hrest].
      destruct (groups3 a b c Ha Hb Hc) as (H1 & H2 & H3 & H4). cbv zeta in *.
      cbn [b64encode b64decode]. cbv zeta. rewrite H1, H2, H3, H4.
      unfold is_byte in Ha, Hb, Hc.
      assert (Hg1 : 0 <= a / 4 < 64) by (Z.div_mod_to_equations; lia).
      assert (Hg2 : 0 <= a mod 4 * 16 + b / 16 < 64) by (Z.div_mod_to_equations; lia).
      assert (Hg3 : 0 <= b mod 16 * 4 + c / 64 < 64) by (Z.div_mod_to_equations; lia).
      assert (Hg4 : 0 <= c mod 64 < 64) by (Z.div_mod_to_equations; lia).
      rewrite (proj1 (b64_index_char _ Hg1)), (proj1 (b64_index_char _ Hg2)).
      cbn [mbind option_bind].
      destruct (Ascii.eqb_spec (b64_char (b mod 16 * 4 + c / 64)) "=") as [Heq|_];
        [exfalso; exact (proj2 (b64_index_char _ Hg3) Heq)|].
      rewrite (proj1 (b64_index_char _ Hg3)). cbn [mbind option_bind].
      destruct (Ascii.eqb_spec (b64_char (c mod 64)) "=") as [Heq|_];
        [exfalso; exact (proj2 (b64_index_char _ Hg4) Heq)|].
      rewrite (proj1 (b64_index_char _ Hg4)). cbn [mbind option_bind].
      rewrite (IH rest) by (cbn in Hlen; lia || exact Hrest). cbn [mbind option_bind].
      f_equal. f_equal; [|f_equal; [|f_equal]]; Z.div_mod_to_equations; lia.
Qed.

(** The text the default screenshot returns holds the picture without
    loss: read back as base64, it gives the very bytes of the PNG that
    the current page produced. *)
Theorem screenshot_text_decodes (env : Env) (s : Self) (p : Page) (png : string) :
  _page s = Some p ->
  Forall is_byte (screenshot_png env p) ->
  result (BasePlaywrightComputer.screenshot env s) = Ok png ->
  b64decode png = Some (screenshot_png env p).
Proof.
  intros Hp Hbytes Hshot.
  destruct (base_screenshot_ok env s png Hshot) as (q & Hq & ->).
  rewrite Hp in Hq. injection Hq as <-.
  apply (b64decode_encode_aux (length (screenshot_png env p))); [lia | exact Hbytes].
Qed.

Lemma screenshot_text_decodes_witness :
  _page entered_self = Some (PageRef 0) /\
  Forall is_byte (screenshot_png quiet_env (PageRef 0)) /\
  result (BasePlaywrightComputer.screenshot quiet_env entered_self) = Ok "iVBORw==" /\
  b64decode "iVBORw==" = Some [137; 80; 78; 71].
Proof.
  assert (Hbytes : Forall is_byte (screenshot_png quiet_env (PageRef 0))).
  { repeat constructor; cbv; discriminate. }
  split; [reflexivity|]. split; [exact Hbytes|]. split; [reflexivity|].
  apply (screenshot_text_decodes quiet_env entered_self (PageRef 0) "iVBORw=="
           eq_refl Hbytes eq_refl).
Defined.

Lemma click_buttons_witness :
  _page entered_self = Some (PageRef 0) /\
  trace (BasePlaywrightComputer.click 7 9 "right" quiet_env entered_self)
  = [Called (mouse_click (PageRef 0) 7 9 "right")].
Proof.
  split; [reflexivity|].
  apply (proj2 (proj2 (click_buttons quiet_env entered_self 7 9 "right"))
           (PageRef 0) eq_refl eq_refl).
Defined.


Lemma handle_route_verdict_witness :
  check_blocklisted_url quiet_env "https://ads.example.com/x.js" = true /\
  Printed ("Flagging blocked domain: " +:+ "https://ads.example.com/x.js")
    ∈ trace (BasePlaywrightComputer.handle_route "https://ads.example.com/x.js"
               quiet_env entered_self).
Proof.
  split; [reflexivity|].
  apply (proj1 (proj2 (handle_route_verdict quiet_env entered_self
                         "https://ads.example.com/x.js"))).
  reflexivity.
Defined.

(** ** The bootstrap hook *)

(** [__enter__] starts the engine before anything else, and does nothing
    else when that raises.  Whatever the bootstrap of the subclass raises
    leaves [__enter__] unchanged: the engine is stored already, the
    attributes are otherwise as the bootstrap left them, and no route is
    installed.  The bootstrap of the base class itself always raises
    [NotImplementedError]. *)
Theorem enter_passes_on_bootstrap_failure (env : Env) (s : Self)
    (hook : M (Browser * Page)) :
  (forall e,
     raises env sync_playwright_start = Some e ->
     BasePlaywrightComputer.__enter__ hook env s
     = (s, [Called sync_playwright_start], Raise e)) /\
  (forall sh th e,
     raises env sync_playwright_start = None ->
     hook env (set_playwright (Some playwright_handle) s) = (sh, th, Raise e) ->
     BasePlaywrightComputer.__enter__ hook env s
     = (sh, Called sync_playwright_start :: th, Raise e)) /\
  (raises env sync_playwright_start = None ->
   BasePlaywrightComputer.__enter__ BasePlaywrightComputer._get_browser_and_page env s
   = (set_playwright (Some playwright_handle) s, [Called sync_playwright_start],
      Raise NotImplementedError)).
Proof.
  unfold BasePlaywrightComputer.__enter__. split; [|split].
  - intros e He. apply call_bind_raise. exact He.
  - intros sh th e Hstart Hhook. rewrite call_bind_ok by exact Hstart.
    rewrite bind_run. cbn [modify]. rewrite bind_run, Hhook. reflexivity.
  - intros Hstart. rewrite call_bind_ok by exact Hstart. reflexivity.
Qed.

Lemma enter_passes_on_bootstrap_failure_witness :
  raises quiet_env sync_playwright_start = None /\
  BasePlaywrightComputer.__enter__ BasePlaywrightComputer._get_browser_and_page
    quiet_env fresh_self
  = (set_playwright (Some playwright_handle) fresh_self,
     [Called sync_playwright_start], Raise NotImplementedError).
Proof.
  split; [reflexivity|].
  apply (proj2 (proj2 (enter_passes_on_bootstrap_failure quiet_env fresh_self
                         BasePlaywrightComputer._get_browser_and_page)) eq_refl).
Defined.

(** ** The order of the bootstrap *)

(** In every run of [__enter__] of a remote backend the route handler is
    installed last: a call of [page.route] ends the trace, it is on the
    page that has been sent to https://bing.com before, and with the
    pattern for every URL.  When [__enter__] returns, that page is the
    current page. *)
Theorem route_installed_last (env : Env) (s : Self) (enter : M unit) :
  enter = BrowserbaseBrowser.__enter__ \/ enter = LumiTehBrowser.__enter__ ->
  (forall p pattern,
     Called (page_route p pattern) ∈ trace (enter env s) ->
     pattern = "**/*" /\
     last (trace (enter env s)) = Some (Called (page_route p pattern)) /\
     Called (page_goto p "https://bing.com") ∈ trace (enter env s)) /\
  (result (enter env s) = Ok tt ->
   exists p,
     _page (attrs (enter env s)) = Some p /\
     last (trace (enter env s)) = Some (Called (page_route p "**/*"))).
Proof.
  intros Hsel. destruct s as [pw b p se [w h] rg px vm ab].
  destruct Hsel as [-> | ->].
  - unfold BrowserbaseBrowser.__enter__, BasePlaywrightComputer.__enter__,
      BrowserbaseBrowser._get_browser_and_page.
    destruct vm; engine_cases env.
    all: split;
      [ intros q pattern Hin; in_trace Hin; injection Hin as -> ->;
        repeat split; repeat constructor
      | intros Hres; try discriminate Hres; eexists; repeat split ].
  - unfold LumiTehBrowser.__enter__, BasePlaywrightComputer.__enter__,
      LumiTehBrowser._get_browser_and_page.
    engine_cases env.
    all: split;
      [ intros q pattern Hin; in_trace Hin; injection Hin as -> ->;
        repeat split; repeat constructor
      | intros Hres; try discriminate Hres; eexists; repeat split ].
Qed.

Lemma route_installed_last_witness :
  (BrowserbaseBrowser.__enter__ = BrowserbaseBrowser.__enter__ \/
   BrowserbaseBrowser.__enter__ = LumiTehBrowser.__enter__) /\
  result (BrowserbaseBrowser.__enter__ quiet_env fresh_self) = Ok tt /\
  exists p,
    _page (attrs (BrowserbaseBrowser.__enter__ quiet_env fresh_self)) = Some p /\
    last (trace (BrowserbaseBrowser.__enter__ quiet_env fresh_self))
    = Some (Called (page_route p "**/*")).
Proof.
  split; [left; reflexivity|]. split; [reflexivity|].
  apply (proj2 (route_installed_last quiet_env fresh_self BrowserbaseBrowser.__enter__
                  (or_introl eq_refl)) eq_refl).
Defined.

(** The cursor overlay is a choice of Browserbase alone: its bootstrap
    adds the init script only when [virtual_mouse] is on, and then in
    every run that reaches the first navigation; the bootstrap of LumiTeh
    never adds it. *)
Theorem init_script_follows_virtual_mouse (env : Env) (s : Self) :
  (virtual_mouse s = false ->
   Called context_add_init_script ∉ trace (BrowserbaseBrowser.__enter__ env s)) /\
  (virtual_mouse s = true ->
   forall p url,
     Called (page_goto p url) ∈ trace (BrowserbaseBrowser.__enter__ env s) ->
     Called context_add_init_script ∈ trace (BrowserbaseBrowser.__enter__ env s)) /\
  Called context_add_init_script ∉ trace (LumiTehBrowser.__enter__ env s).
Proof.
  destruct s as [pw b p se [w h] rg px vm ab]. cbn [virtual_mouse].
  split; [|split].
  - intros ->.
    unfold BrowserbaseBrowser.__enter__, BasePlaywrightComputer.__enter__,
      BrowserbaseBrowser._get_browser_and_page.
    engine_cases env. all: intros Hin; in_trace Hin.
  - intros ->.
    unfold BrowserbaseBrowser.__enter__, BasePlaywrightComputer.__enter__,
      BrowserbaseBrowser._get_browser_and_page.
    engine_cases env. all: intros q url Hin; in_trace Hin; repeat constructor.
  - unfold LumiTehBrowser.__enter__, BasePlaywrightComputer.__enter__,
      LumiTehBrowser._get_browser_and_page.
    engine_cases env. all: intros Hin; in_trace Hin.
Qed.

Lemma init_script_follows_virtual_mouse_witness :
  virtual_mouse
    (BrowserbaseBrowser.__init__ None None None None (Some false) None) = false /\
  Called context_add_init_script
    ∉ trace (BrowserbaseBrowser.__enter__ quiet_env
               (BrowserbaseBrowser.__init__ None None None None (Some false) None)).
Proof.
  split; [reflexivity|].
  apply (proj1 (init_script_follows_virtual_mouse quiet_env
                  (BrowserbaseBrowser.__init__ None None None None (Some false) None))
           eq_refl).
Defined.
